(** * GLSkybox: a shallow embedding of PeaksAndValleys/js/GLSkybox.js

    The skybox component owns a cube mesh, a shader program and a
    texture, and draws the cube once per frame.  The JavaScript is
    embedded as computations in a state-and-exception monad over an
    environment that holds the instance ([this]), the WebGL context,
    the console and the pending image request.

    Conventions of the embedding.
    - JavaScript numbers are exact rationals ([Q]).  Every numeric
      constant of the source is a dyadic rational; rounding, NaN and
      infinities are outside the model, and numeric arrays are compared
      entry by entry with [Qeq].
    - The constructor's argument [gl] and the global [gl] used by the
      prototype methods are the same context.
    - Matrices handed to [render] by the caller are values: they are
      not aliased with the instance's own matrices.
    - A call into the platform (the WebGL context, the asset loader)
      may throw.  Which calls do is decided by the environment, through
      the fault plan carried in the state. *)

From stdpp Require Import base option list gmap strings.
From Stdlib Require Import ZArith QArith Lia.

Open Scope Z_scope.

(** ** Outcomes and the JS monad *)

Inductive outcome (A : Type) : Type :=
| Normal (a : A)
| Throw (err : string).
Arguments Normal {A} a.
Arguments Throw {A} err.

Definition handle := nat.

(** ** Values that live in typed arrays *)

Inductive typed_array : Type :=
| Float32Array (l : list Q)
| Uint16Array (l : list Z)
| Uint8Array (l : list Z).

Definition new_Uint16Array (l : list Z) : typed_array :=
  Uint16Array (map (fun z => z mod 65536) l).

Definition new_Uint8Array (l : list Z) : typed_array :=
  Uint8Array (map (fun z => z mod 256) l).

(** The numbers of the source are held exactly (see the conventions). *)
Definition new_Float32Array (l : list Q) : typed_array := Float32Array l.

Definition mat4 := list Q.
Definition vec3 := list Q.

(** ** The WebGL context *)

Inductive capability := DEPTH_TEST | BLEND | CULL_FACE.
Inductive buffer_target := ARRAY_BUFFER | ELEMENT_ARRAY_BUFFER.
Inductive buffer_usage := STATIC_DRAW.
Inductive shader_kind := FRAGMENT_SHADER | VERTEX_SHADER.
Inductive pixel_format := RGBA.
Inductive component_type := UNSIGNED_BYTE | UNSIGNED_SHORT | FLOAT.
Inductive draw_mode := TRIANGLES.
Inductive tex_filter := NEAREST | LINEAR | NEAREST_MIPMAP_LINEAR.
Inductive tex_pname := TEXTURE_MAG_FILTER | TEXTURE_MIN_FILTER.

#[global] Instance capability_eq_dec : EqDecision capability.
Proof. solve_decision. Defined.

(** A decoded picture, as the image loader hands it to [onload]. *)
Record picture := Picture { pic_width : Z; pic_height : Z; pic_rows : list (list Z) }.

Inductive tex_data : Type :=
| Pixels (width height : Z) (format : pixel_format) (bytes : typed_array)
| FromPicture (format : pixel_format) (flip_y : bool) (pic : picture).

Record texture_state := TextureState {
  tex_image : option tex_data;
  tex_mag : tex_filter;
  tex_min : tex_filter }.

Inductive gl_object : Type :=
| BufferObject (data : option typed_array) (usage : option buffer_usage)
| TextureObject (t : texture_state)
| ShaderObject (kind : shader_kind) (path : string)
| ProgramObject (attached : list handle) (linked : bool).

Inductive uniform_value : Type :=
| UniformMatrix4 (m : mat4)
| UniformInt (i : Z).

Record uniform_location := UniformLocation { ul_program : handle; ul_name : string }.

Record attrib_pointer := AttribPointer {
  ap_buffer : option handle; ap_size : Z; ap_type : component_type;
  ap_normalized : bool; ap_stride : Z; ap_offset : Z }.

(** A draw call as the context logs it: its arguments, and whether
    depth testing was on when it ran. *)
Record draw_call := DrawElements {
  dc_mode : draw_mode; dc_count : Z; dc_type : component_type; dc_offset : Z;
  dc_depth_test : bool }.

(** The bindings and uniforms a draw call ran with: what the draw reads
    from the context at the moment it is issued. *)
Record draw_context := DrawContext {
  dx_program : option handle;
  dx_array_buffer : option handle;
  dx_element_array_buffer : option handle;
  dx_active_texture : nat;
  dx_texture : option handle;
  dx_uniforms : gmap (handle * string) uniform_value;
  dx_attrib_pointers : gmap Z attrib_pointer }.

Record GLState := MkGL {
  caps : capability -> bool;
  current_program : option handle;
  array_buffer : option handle;
  element_array_buffer : option handle;
  active_texture : nat;
  texture_2d : gmap nat handle;
  unpack_flip_y : bool;
  objects : gmap handle gl_object;
  uniforms : gmap (handle * string) uniform_value;
  enabled_attribs : list Z;
  attrib_pointers : gmap Z attrib_pointer;
  draws : list draw_call;
  next_handle : handle;
  locations : gmap string Z;
  draw_contexts : list draw_context }.

Definition set_caps v (s : GLState) :=
  MkGL v (current_program s) (array_buffer s) (element_array_buffer s)
    (active_texture s) (texture_2d s) (unpack_flip_y s) (objects s) (uniforms s)
    (enabled_attribs s) (attrib_pointers s) (draws s) (next_handle s) (locations s) (draw_contexts s).
Definition set_current_program v (s : GLState) :=
  MkGL (caps s) v (array_buffer s) (element_array_buffer s)
    (active_texture s) (texture_2d s) (unpack_flip_y s) (objects s) (uniforms s)
    (enabled_attribs s) (attrib_pointers s) (draws s) (next_handle s) (locations s) (draw_contexts s).
Definition set_array_buffer v (s : GLState) :=
  MkGL (caps s) (current_program s) v (element_array_buffer s)
    (active_texture s) (texture_2d s) (unpack_flip_y s) (objects s) (uniforms s)
    (enabled_attribs s) (attrib_pointers s) (draws s) (next_handle s) (locations s) (draw_contexts s).
Definition set_element_array_buffer v (s : GLState) :=
  MkGL (caps s) (current_program s) (array_buffer s) v
    (active_texture s) (texture_2d s) (unpack_flip_y s) (objects s) (uniforms s)
    (enabled_attribs s) (attrib_pointers s) (draws s) (next_handle s) (locations s) (draw_contexts s).
Definition set_active_texture v (s : GLState) :=
  MkGL (caps s) (current_program s) (array_buffer s) (element_array_buffer s)
    v (texture_2d s) (unpack_flip_y s) (objects s) (uniforms s)
    (enabled_attribs s) (attrib_pointers s) (draws s) (next_handle s) (locations s) (draw_contexts s).
Definition set_texture_2d v (s : GLState) :=
  MkGL (caps s) (current_program s) (array_buffer s) (element_array_buffer s)
    (active_texture s) v (unpack_flip_y s) (objects s) (uniforms s)
    (enabled_attribs s) (attrib_pointers s) (draws s) (next_handle s) (locations s) (draw_contexts s).
Definition set_unpack_flip_y v (s : GLState) :=
  MkGL (caps s) (current_program s) (array_buffer s) (element_array_buffer s)
    (active_texture s) (texture_2d s) v (objects s) (uniforms s)
    (enabled_attribs s) (attrib_pointers s) (draws s) (next_handle s) (locations s) (draw_contexts s).
Definition set_objects v (s : GLState) :=
  MkGL (caps s) (current_program s) (array_buffer s) (element_array_buffer s)
    (active_texture s) (texture_2d s) (unpack_flip_y s) v (uniforms s)
    (enabled_attribs s) (attrib_pointers s) (draws s) (next_handle s) (locations s) (draw_contexts s).
Definition set_uniforms v (s : GLState) :=
  MkGL (caps s) (current_program s) (array_buffer s) (element_array_buffer s)
    (active_texture s) (texture_2d s) (unpack_flip_y s) (objects s) v
    (enabled_attribs s) (attrib_pointers s) (draws s) (next_handle s) (locations s) (draw_contexts s).
Definition set_enabled_attribs v (s : GLState) :=
  MkGL (caps s) (current_program s) (array_buffer s) (element_array_buffer s)
    (active_texture s) (texture_2d s) (unpack_flip_y s) (objects s) (uniforms s)
    v (attrib_pointers s) (draws s) (next_handle s) (locations s) (draw_contexts s).
Definition set_attrib_pointers v (s : GLState) :=
  MkGL (caps s) (current_program s) (array_buffer s) (element_array_buffer s)
    (active_texture s) (texture_2d s) (unpack_flip_y s) (objects s) (uniforms s)
    (enabled_attribs s) v (draws s) (next_handle s) (locations s) (draw_contexts s).
Definition set_draws v (s : GLState) :=
  MkGL (caps s) (current_program s) (array_buffer s) (element_array_buffer s)
    (active_texture s) (texture_2d s) (unpack_flip_y s) (objects s) (uniforms s)
    (enabled_attribs s) (attrib_pointers s) v (next_handle s) (locations s) (draw_contexts s).
Definition set_next_handle v (s : GLState) :=
  MkGL (caps s) (current_program s) (array_buffer s) (element_array_buffer s)
    (active_texture s) (texture_2d s) (unpack_flip_y s) (objects s) (uniforms s)
    (enabled_attribs s) (attrib_pointers s) (draws s) v (locations s) (draw_contexts s).

Definition set_draw_contexts v (s : GLState) :=
  MkGL (caps s) (current_program s) (array_buffer s) (element_array_buffer s)
    (active_texture s) (texture_2d s) (unpack_flip_y s) (objects s) (uniforms s)
    (enabled_attribs s) (attrib_pointers s) (draws s) (next_handle s) (locations s) v.

(** ** The instance and the environment *)

(** The wrapper objects that the source decorates with properties of
    its own ([itemSize], [numItems], the attribute and uniform slots). *)
Record WebGLBuffer := MkBuffer {
  buf_id : handle; itemSize : option Z; numItems : option Z }.

Record WebGLProgram := MkProgram {
  prog_id : handle;
  vertexPositionAttribute : option Z;
  vertexCoordsAttribute : option Z;
  pMatrixUniform : option uniform_location;
  mvMatrixUniform : option uniform_location;
  samplerUniform : option uniform_location }.

(** The fields of [this]; [None] is [undefined]. *)
Record Skybox := MkSkybox {
  shader : option WebGLProgram;
  texture : option handle;
  vBuffer : option WebGLBuffer;
  tBuffer : option WebGLBuffer;
  iBuffer : option WebGLBuffer;
  mMatrix : option mat4;
  mvMatrix : option mat4;
  position : option vec3 }.

Definition empty_skybox : Skybox := MkSkybox None None None None None None None None.

Definition set_shader v (o : Skybox) :=
  MkSkybox v (texture o) (vBuffer o) (tBuffer o) (iBuffer o) (mMatrix o) (mvMatrix o) (position o).
Definition set_texture v (o : Skybox) :=
  MkSkybox (shader o) v (vBuffer o) (tBuffer o) (iBuffer o) (mMatrix o) (mvMatrix o) (position o).
Definition set_vBuffer v (o : Skybox) :=
  MkSkybox (shader o) (texture o) v (tBuffer o) (iBuffer o) (mMatrix o) (mvMatrix o) (position o).
Definition set_tBuffer v (o : Skybox) :=
  MkSkybox (shader o) (texture o) (vBuffer o) v (iBuffer o) (mMatrix o) (mvMatrix o) (position o).
Definition set_iBuffer v (o : Skybox) :=
  MkSkybox (shader o) (texture o) (vBuffer o) (tBuffer o) v (mMatrix o) (mvMatrix o) (position o).
Definition set_mMatrix v (o : Skybox) :=
  MkSkybox (shader o) (texture o) (vBuffer o) (tBuffer o) (iBuffer o) v (mvMatrix o) (position o).
Definition set_mvMatrix v (o : Skybox) :=
  MkSkybox (shader o) (texture o) (vBuffer o) (tBuffer o) (iBuffer o) (mMatrix o) v (position o).
Definition set_position v (o : Skybox) :=
  MkSkybox (shader o) (texture o) (vBuffer o) (tBuffer o) (iBuffer o) (mMatrix o) (mvMatrix o) v.

(** The [Image] element created by [initTexture]. *)
Record HTMLImage := MkImage { img_onload : bool; img_src : option string }.

Record Env := MkEnv {
  this : Skybox;
  gl : GLState;
  console : list string;
  image : option HTMLImage;
  plan : list (option string) }.

Definition set_this v (e : Env) := MkEnv v (gl e) (console e) (image e) (plan e).
Definition set_gl v (e : Env) := MkEnv (this e) v (console e) (image e) (plan e).
Definition set_console v (e : Env) := MkEnv (this e) (gl e) v (image e) (plan e).
Definition set_image v (e : Env) := MkEnv (this e) (gl e) (console e) v (plan e).
Definition set_plan v (e : Env) := MkEnv (this e) (gl e) (console e) (image e) v.

Definition JS (A : Type) : Type := Env -> outcome A * Env.

#[global] Instance JS_ret : MRet JS := fun A a env => (Normal a, env).
#[global] Instance JS_bind : MBind JS := fun A B f m env =>
  match m env with
  | (Normal a, env') => f a env'
  | (Throw err, env') => (Throw err, env')
  end.

Definition throw {A} (err : string) : JS A := fun env => (Throw err, env).

(** [try { body } catch (err) { handler err }] *)
Definition try_catch {A} (body : JS A) (handler : string -> JS A) : JS A :=
  fun env =>
    match body env with
    | (Normal a, env') => (Normal a, env')
    | (Throw err, env') => handler err env'
    end.

Definition get_this : JS Skybox := fun env => (Normal (this env), env).
Definition modify_this (f : Skybox -> Skybox) : JS unit :=
  fun env => (Normal tt, set_this (f (this env)) env).

(** Dereferencing [undefined] throws a [TypeError]. *)
Definition defined {A} (what : string) (o : option A) : JS A :=
  match o with
  | Some a => mret a
  | None => throw ("TypeError: " +:+ what +:+ " is undefined")
  end.

(** A call into the platform: the head of the fault plan says whether
    it throws; an exhausted plan means no more faults. *)
Definition platform {A} (call : GLState -> A * GLState) : JS A :=
  fun env =>
    match plan env with
    | Some err :: rest => (Throw err, set_plan rest env)
    | None :: rest =>
        let (a, s) := call (gl env) in (Normal a, set_gl s (set_plan rest env))
    | [] => let (a, s) := call (gl env) in (Normal a, set_gl s env)
    end.

Definition console_log (msg : string) : JS unit :=
  fun env => (Normal tt, set_console (console env ++ [msg]) env).

(** ** The operations of the WebGL context used by the component

    Each operation is the state change that the WebGL specification
    gives it.  An operation that WebGL rejects with an error flag (no
    object bound, a location of another program) leaves the state as
    it is: WebGL reports such errors through [getError], not by
    throwing. *)

Inductive pixel_store_param := UNPACK_FLIP_Y_WEBGL.

Definition TEXTURE0 : nat := 0%nat.

Definition buffer_binding (target : buffer_target) (s : GLState) : option handle :=
  match target with
  | ARRAY_BUFFER => array_buffer s
  | ELEMENT_ARRAY_BUFFER => element_array_buffer s
  end.

Definition bound_texture (s : GLState) : option handle :=
  texture_2d s !! active_texture s.

Definition default_texture : texture_state :=
  TextureState None LINEAR NEAREST_MIPMAP_LINEAR.

(** The object store after [f] has been applied to the texture bound
    to [TEXTURE_2D] on the active unit, if there is one. *)
Definition update_bound_texture (f : texture_state -> texture_state)
    (bound : option handle) (objs : gmap handle gl_object) : gmap handle gl_object :=
  match bound with
  | Some h =>
      match objs !! h with
      | Some (TextureObject t) => <[h := TextureObject (f t)]> objs
      | _ => objs
      end
  | None => objs
  end.

Definition set_tex_image v (t : texture_state) := TextureState (Some v) (tex_mag t) (tex_min t).
Definition set_tex_filter (pname : tex_pname) v (t : texture_state) :=
  match pname with
  | TEXTURE_MAG_FILTER => TextureState (tex_image t) v (tex_min t)
  | TEXTURE_MIN_FILTER => TextureState (tex_image t) (tex_mag t) v
  end.

(** The uniform store after [v] has been written at [loc]: a [null]
    location is ignored, a location of another program rejected. *)
Definition store_uniform (loc : option uniform_location) (v : uniform_value)
    (current : option handle) (us : gmap (handle * string) uniform_value)
    : gmap (handle * string) uniform_value :=
  match loc with
  | Some l =>
      if bool_decide (current = Some (ul_program l))
      then <[(ul_program l, ul_name l) := v]> us
      else us
  | None => us
  end.

(** What a draw issued in state [s] runs with. *)
Definition current_draw_context (s : GLState) : draw_context :=
  DrawContext (current_program s) (array_buffer s) (element_array_buffer s)
    (active_texture s) (bound_texture s) (uniforms s) (attrib_pointers s).

Module gl.

Definition enable (cap : capability) : JS unit :=
  platform (fun s => (tt, set_caps (fun c => if decide (c = cap) then true else caps s c) s)).

Definition disable (cap : capability) : JS unit :=
  platform (fun s => (tt, set_caps (fun c => if decide (c = cap) then false else caps s c) s)).

Definition createBuffer : JS WebGLBuffer :=
  platform (fun s =>
    let h := next_handle s in
    (MkBuffer h None None,
     set_objects (<[h := BufferObject None None]> (objects s)) (set_next_handle (S h) s))).

Definition bindBuffer (target : buffer_target) (b : option WebGLBuffer) : JS unit :=
  platform (fun s =>
    (tt, match target with
         | ARRAY_BUFFER => set_array_buffer (buf_id <$> b) s
         | ELEMENT_ARRAY_BUFFER => set_element_array_buffer (buf_id <$> b) s
         end)).

Definition bufferData (target : buffer_target) (data : typed_array) (usage : buffer_usage) : JS unit :=
  platform (fun s =>
    (tt, set_objects
           match buffer_binding target s with
           | Some h => <[h := BufferObject (Some data) (Some usage)]> (objects s)
           | None => objects s
           end s)).

Definition createProgram : JS WebGLProgram :=
  platform (fun s =>
    let h := next_handle s in
    (MkProgram h None None None None None,
     set_objects (<[h := ProgramObject [] false]> (objects s)) (set_next_handle (S h) s))).

Definition attachShader (program : WebGLProgram) (sh : handle) : JS unit :=
  platform (fun s =>
    (tt, set_objects
           match objects s !! prog_id program with
           | Some (ProgramObject attached linked) =>
               <[prog_id program := ProgramObject (attached ++ [sh]) linked]> (objects s)
           | _ => objects s
           end s)).

Definition linkProgram (program : WebGLProgram) : JS unit :=
  platform (fun s =>
    (tt, set_objects
           match objects s !! prog_id program with
           | Some (ProgramObject attached _) =>
               <[prog_id program := ProgramObject attached true]> (objects s)
           | _ => objects s
           end s)).

Definition useProgram (program : option WebGLProgram) : JS unit :=
  platform (fun s => (tt, set_current_program (prog_id <$> program) s)).

(** The slot of an attribute is the linker's choice ([locations]);
    [-1] when the program has no such attribute. *)
Definition getAttribLocation (program : WebGLProgram) (name : string) : JS Z :=
  platform (fun s => (default (-1) (locations s !! name), s)).

(** An index that is [undefined] converts to 0; [-1] converts to an
    unsigned value past every slot and is rejected. *)
Definition enableVertexAttribArray (index : option Z) : JS unit :=
  platform (fun s =>
    let i := default 0 index in
    (tt, set_enabled_attribs
           (if 0 <=? i then i :: enabled_attribs s else enabled_attribs s) s)).

Definition getUniformLocation (program : WebGLProgram) (name : string) : JS uniform_location :=
  platform (fun s => (UniformLocation (prog_id program) name, s)).

Definition vertexAttribPointer (index size : option Z) (type : component_type)
    (normalized : bool) (stride offset : Z) : JS unit :=
  platform (fun s =>
    let i := default 0 index in
    (tt, set_attrib_pointers
           (if 0 <=? i
            then <[i := AttribPointer (array_buffer s) (default 0 size) type normalized stride offset]>
                   (attrib_pointers s)
            else attrib_pointers s) s)).

Definition createTexture : JS handle :=
  platform (fun s =>
    let h := next_handle s in
    (h, set_objects (<[h := TextureObject default_texture]> (objects s)) (set_next_handle (S h) s))).

Definition activeTexture (texture_unit : nat) : JS unit :=
  platform (fun s => (tt, set_active_texture texture_unit s)).

(** [bindTexture(gl.TEXTURE_2D, t)]; [None] is [null] and unbinds. *)
Definition bindTexture (t : option handle) : JS unit :=
  platform (fun s =>
    (tt, set_texture_2d
           match t with
           | Some h => <[active_texture s := h]> (texture_2d s)
           | None => delete (active_texture s) (texture_2d s)
           end s)).

Definition pixelStorei (pname : pixel_store_param) (v : bool) : JS unit :=
  platform (fun s => (tt, match pname with UNPACK_FLIP_Y_WEBGL => set_unpack_flip_y v s end)).

(** The nine-argument form: raw pixels. *)
Definition texImage2D_pixels (level : Z) (internalformat : pixel_format) (width height border : Z)
    (format : pixel_format) (type : component_type) (pixels : typed_array) : JS unit :=
  platform (fun s =>
    (tt, set_objects
           (update_bound_texture (set_tex_image (Pixels width height format pixels))
              (bound_texture s) (objects s)) s)).

(** The six-argument form: an image element, flipped as the unpack
    flag in force says. *)
Definition texImage2D_image (level : Z) (internalformat format : pixel_format)
    (type : component_type) (pic : picture) : JS unit :=
  platform (fun s =>
    (tt, set_objects
           (update_bound_texture (set_tex_image (FromPicture format (unpack_flip_y s) pic))
              (bound_texture s) (objects s)) s)).

Definition texParameteri (pname : tex_pname) (v : tex_filter) : JS unit :=
  platform (fun s =>
    (tt, set_objects
           (update_bound_texture (set_tex_filter pname v) (bound_texture s) (objects s)) s)).

Definition uniform1i (loc : option uniform_location) (i : Z) : JS unit :=
  platform (fun s =>
    (tt, set_uniforms (store_uniform loc (UniformInt i) (current_program s) (uniforms s)) s)).

Definition uniformMatrix4fv (loc : option uniform_location) (transpose : bool) (value : mat4) : JS unit :=
  platform (fun s =>
    (tt, set_uniforms
           (if transpose then uniforms s
            else store_uniform loc (UniformMatrix4 value) (current_program s) (uniforms s)) s)).

Definition drawElements (mode : draw_mode) (count : option Z) (type : component_type) (offset : Z) : JS unit :=
  platform (fun s =>
    (tt, set_draw_contexts (draw_contexts s ++ [current_draw_context s])
           (set_draws
              (draws s ++ [DrawElements mode (default 0 count) type offset (caps s DEPTH_TEST)])
              s))).

End gl.

Module assets.

(** Modelled from the spec: the asset loader [assets.getShader(gl, path,
    kind)] is not under src/.  It hands back a compiled shader of the
    asked kind; being a platform call it may throw (a compile failure). *)
Definition getShader (path : string) (kind : shader_kind) : JS handle :=
  platform (fun s =>
    let h := next_handle s in
    (h, set_objects (<[h := ShaderObject kind path]> (objects s)) (set_next_handle (S h) s))).

End assets.

(** ** The matrix library

    glMatrix ([mat4], [vec3]) is not under src/; its functions are
    modelled from what the spec says of them.  A matrix is a 16-entry
    array in column-major order, as [uniformMatrix4fv] takes it without
    transposition.  Reading an entry of [undefined] throws. *)

Open Scope Q_scope.

Definition identity_matrix : mat4 :=
  [1; 0; 0; 0;   0; 1; 0; 0;   0; 0; 1; 0;   0; 0; 0; 1].

(** [m[i]] *)
Definition at_index (m : list Q) (i : nat) : Q := nth i m 0.

Module mat4.

(** Modelled from the spec: [mat4.create()] of glMatrix, not under src/.
    "Initializes model matrix, model-view matrix, and position to
    identity/zero": the fresh matrix is the identity. *)
Definition create : mat4 := identity_matrix.

(** Modelled from the spec: [mat4.identity(dest)] of glMatrix, not under
    src/.  "Resets the model matrix to identity."  The result is the
    new content of [dest]. *)
Definition identity (dest : option mat4) : JS mat4 :=
  _ ← defined "dest" dest; mret identity_matrix.

(** Modelled from the spec: [mat4.translate(mat, vec)] of glMatrix, not
    under src/.  "Applies the stored translation": [mat] becomes
    [mat x T(vec)], which changes its last column only. *)
Definition translated (mat : mat4) (vec : vec3) : mat4 :=
  let x := at_index vec 0 in
  let y := at_index vec 1 in
  let z := at_index vec 2 in
  let m := at_index mat in
  <[15%nat := m 3%nat * x + m 7%nat * y + m 11%nat * z + m 15%nat]>
 (<[14%nat := m 2%nat * x + m 6%nat * y + m 10%nat * z + m 14%nat]>
 (<[13%nat := m 1%nat * x + m 5%nat * y + m 9%nat * z + m 13%nat]>
 (<[12%nat := m 0%nat * x + m 4%nat * y + m 8%nat * z + m 12%nat]> mat))).

(** Modelled from the spec: the call [mat4.translate(mat, vec)] on
    fields that may be [undefined]; the result is the new content of
    [mat]. *)
Definition translate (mat : option mat4) (vec : option vec3) : JS mat4 :=
  v ← defined "vec" vec;
  m ← defined "mat" mat;
  mret (translated m v).

(** Modelled from the spec: the entries that [mat4.multiply] of glMatrix
    (not under src/) computes.  "Computes model-view = view x model":
    entry [4*j + i] of [mat x mat2] is row [i] of [mat] against column
    [j] of [mat2]. *)
Definition product_entry (mat mat2 : mat4) (j i : nat) : Q :=
  at_index mat2 (4 * j) * at_index mat i
  + at_index mat2 (4 * j + 1) * at_index mat (4 + i)
  + at_index mat2 (4 * j + 2) * at_index mat (8 + i)
  + at_index mat2 (4 * j + 3) * at_index mat (12 + i).

(** Modelled from the spec: the 16 entries of [mat x mat2], column by
    column, as [mat4.multiply] of glMatrix (not under src/) stores them. *)
Definition product (mat mat2 : mat4) : mat4 :=
  j ← seq 0 4; i ← seq 0 4; [product_entry mat mat2 j i].

(** Modelled from the spec: [mat4.multiply(mat, mat2, dest)] of glMatrix,
    not under src/; the result is the new content of [dest]. *)
Definition multiply (mat : mat4) (mat2 dest : option mat4) : JS mat4 :=
  b ← defined "mat2" mat2;
  _ ← defined "dest" dest;
  mret (product mat b).

End mat4.

Module vec3.

(** Modelled from the spec: [vec3.create(vec)] of glMatrix, not under
    src/: a fresh vector with the three entries of [vec]. *)
Definition create (vec : list Q) : vec3 :=
  [at_index vec 0; at_index vec 1; at_index vec 2].

End vec3.

(** ** The component *)

(** Lines 36-43. *)
Definition vertices : list Q := [
  -1.0; -1.0; -1.0;  1.0; -1.0; -1.0;  1.0; 1.0; -1.0;  -1.0; 1.0; -1.0; (* Front *)
  1.0; -1.0; 1.0;  -1.0; -1.0; 1.0;  -1.0; 1.0; 1.0;  1.0; 1.0; 1.0;     (* Back *)
  -1.0; 1.0; -1.0;  1.0; 1.0; -1.0;  1.0; 1.0; 1.0;  -1.0; 1.0; 1.0;     (* Top *)
  -1.0; -1.0; 1.0;  1.0; -1.0; 1.0;  1.0; -1.0; -1.0;  -1.0; -1.0; -1.0; (* Bottom *)
  -1.0; -1.0; 1.0;  -1.0; -1.0; -1.0;  -1.0; 1.0; -1.0;  -1.0; 1.0; 1.0; (* Left *)
  1.0; -1.0; -1.0;  1.0; -1.0; 1.0;  1.0; 1.0; 1.0;  1.0; 1.0; -1.0      (* Right *)
].

(** Lines 57-64. *)
Definition coords : list Q := [
  0.25; 0.50;   0.50; 0.50;   0.50; 0.75;   0.25; 0.75; (* Front *)
  0.75; 0.50;   1.00; 0.50;   1.00; 0.75;   0.75; 0.75; (* Back *)
  0.25; 0.75;   0.50; 0.75;   0.50; 1.00;   0.25; 1.00; (* Top *)
  0.25; 0.25;   0.50; 0.25;   0.50; 0.50;   0.25; 0.50; (* Bottom *)
  0.00; 0.50;   0.25; 0.50;   0.25; 0.75;   0.00; 0.75; (* Left *)
  0.50; 0.50;   0.75; 0.50;   0.75; 0.75;   0.50; 0.75  (* Right *)
].

Close Scope Q_scope.

(** Lines 67-74. *)
Definition indices : list Z := [
  0; 1; 2; 0; 2; 3;       (* Front *)
  4; 5; 6; 4; 6; 7;       (* Back *)
  8; 9; 10; 8; 10; 11;    (* Top *)
  12; 13; 14; 12; 14; 15; (* Bottom *)
  16; 17; 18; 16; 18; 19; (* Left *)
  20; 21; 22; 20; 22; 23  (* Right *)
].

Definition with_itemSize v (b : WebGLBuffer) := MkBuffer (buf_id b) (Some v) (numItems b).
Definition with_numItems v (b : WebGLBuffer) := MkBuffer (buf_id b) (itemSize b) (Some v).

(** [this.<field>.<prop> = v]: throws when the field is [undefined]. *)
Definition assign_prop {A} (what : string) (get : Skybox -> option A)
    (set : option A -> Skybox -> Skybox) (upd : A -> A) : JS unit :=
  self ← get_this;
  o ← defined what (get self);
  modify_this (set (Some (upd o))).

Definition initShader : JS unit :=
  (* Retrieve our defined shaders. *)
  shader ← gl.createProgram;
  fragment ← assets.getShader "./shaders/GLSkyboxF.c" FRAGMENT_SHADER;
  vertex ← assets.getShader "./shaders/GLSkyboxV.c" VERTEX_SHADER;
  (* Attach our shaders. *)
  gl.attachShader shader fragment;;
  gl.attachShader shader vertex;;
  gl.linkProgram shader;;
  gl.useProgram (Some shader);;
  (* Retrieve the aVertexPosition variable location. *)
  a ← gl.getAttribLocation shader "aVertexPosition";
  let shader := MkProgram (prog_id shader) (Some a) (vertexCoordsAttribute shader)
                  (pMatrixUniform shader) (mvMatrixUniform shader) (samplerUniform shader) in
  gl.enableVertexAttribArray (vertexPositionAttribute shader);;
  (* Retrieve the aVertexCoords variable location. *)
  a ← gl.getAttribLocation shader "aVertexCoords";
  let shader := MkProgram (prog_id shader) (vertexPositionAttribute shader) (Some a)
                  (pMatrixUniform shader) (mvMatrixUniform shader) (samplerUniform shader) in
  gl.enableVertexAttribArray (vertexCoordsAttribute shader);;
  (* Retrieve our uniform locations. *)
  u ← gl.getUniformLocation shader "uPMatrix";
  let shader := MkProgram (prog_id shader) (vertexPositionAttribute shader) (vertexCoordsAttribute shader)
                  (Some u) (mvMatrixUniform shader) (samplerUniform shader) in
  u ← gl.getUniformLocation shader "uMVMatrix";
  let shader := MkProgram (prog_id shader) (vertexPositionAttribute shader) (vertexCoordsAttribute shader)
                  (pMatrixUniform shader) (Some u) (samplerUniform shader) in
  u ← gl.getUniformLocation shader "uSampler";
  let shader := MkProgram (prog_id shader) (vertexPositionAttribute shader) (vertexCoordsAttribute shader)
                  (pMatrixUniform shader) (mvMatrixUniform shader) (Some u) in
  modify_this (set_shader (Some shader)).

(** The body of [image.onload]; [pic] is the decoded content of
    [image] when the load completes.  [_this.texture] is read when the
    callback runs. *)
Definition onload (pic : picture) : JS unit :=
  self ← get_this;
  gl.bindTexture (texture self);;
  gl.pixelStorei UNPACK_FLIP_Y_WEBGL true;;
  gl.texImage2D_image 0 RGBA RGBA UNSIGNED_BYTE pic;;
  gl.texParameteri TEXTURE_MAG_FILTER LINEAR;;
  gl.texParameteri TEXTURE_MIN_FILTER LINEAR;;
  gl.bindTexture None.

Definition placeholder_pixel : list Z := [0; 0; 200; 255].

Definition skybox_image : string := "./images/skybox/skybox.png".

(** [image = new Image()], [image.onload = function ...] and
    [image.src = ...] on the element held in the local [image]. *)
Definition new_Image : JS unit :=
  fun env => (Normal tt, set_image (Some (MkImage false None)) env).
Definition image_set_onload : JS unit :=
  fun env => (Normal tt, set_image ((fun i => MkImage true (img_src i)) <$> image env) env).
Definition image_set_src (src : string) : JS unit :=
  fun env => (Normal tt, set_image ((fun i => MkImage (img_onload i) (Some src)) <$> image env) env).

Definition initTexture : JS unit :=
  (* Skybox texture. *)
  t ← gl.createTexture;
  modify_this (set_texture (Some t));;
  (* Default colour until texture is loaded. *)
  self ← get_this;
  gl.bindTexture (texture self);;
  gl.texImage2D_pixels 0 RGBA 1 1 0 RGBA UNSIGNED_BYTE (new_Uint8Array placeholder_pixel);;
  (* Load our image. *)
  new_Image;;
  image_set_onload;;
  image_set_src skybox_image.

Definition GLSkybox_body : JS unit :=
  (* Initialize our shader. *)
  initShader;;
  (* Initialize our texture. *)
  initTexture;;
  (* Bind the vertex buffer. *)
  b ← gl.createBuffer;
  modify_this (set_vBuffer (Some b));;
  self ← get_this;
  gl.bindBuffer ARRAY_BUFFER (vBuffer self);;
  gl.bufferData ARRAY_BUFFER (new_Float32Array vertices) STATIC_DRAW;;
  assign_prop "this.vBuffer" vBuffer set_vBuffer (with_itemSize 3);;
  assign_prop "this.vBuffer" vBuffer set_vBuffer (with_numItems 24);;
  (* Bind the texture buffer. *)
  b ← gl.createBuffer;
  modify_this (set_tBuffer (Some b));;
  self ← get_this;
  gl.bindBuffer ARRAY_BUFFER (tBuffer self);;
  gl.bufferData ARRAY_BUFFER (new_Float32Array coords) STATIC_DRAW;;
  assign_prop "this.tBuffer" tBuffer set_tBuffer (with_itemSize 2);;
  assign_prop "this.tBuffer" tBuffer set_tBuffer (with_numItems 24);;
  (* Bind the index buffer. *)
  b ← gl.createBuffer;
  modify_this (set_iBuffer (Some b));;
  self ← get_this;
  gl.bindBuffer ELEMENT_ARRAY_BUFFER (iBuffer self);;
  gl.bufferData ELEMENT_ARRAY_BUFFER (new_Uint16Array indices) STATIC_DRAW;;
  assign_prop "this.iBuffer" iBuffer set_iBuffer (with_itemSize 1);;
  assign_prop "this.iBuffer" iBuffer set_iBuffer (with_numItems 36);;
  (* Initialize our terrain variables. *)
  modify_this (set_mMatrix (Some mat4.create));;
  modify_this (set_mvMatrix (Some mat4.create));;
  modify_this (set_position (Some (vec3.create [0.0; 0.0; 0.0]%Q))).

(** [var GLSkybox = function (gl) { try { ... } catch (err) { console.log("GLSkybox: " + err); } }] *)
Definition GLSkybox : JS unit :=
  try_catch GLSkybox_body (fun err => console_log ("GLSkybox: " +:+ err)).

(** [new GLSkybox(gl)]: the constructor runs on a fresh object. *)
Definition new_GLSkybox : JS unit :=
  modify_this (fun _ => empty_skybox);; GLSkybox.

Definition render (pMatrix vMatrix : mat4) : JS unit :=
  (* Reset our model matrix, rotate our model, and position our model. *)
  self ← get_this;
  m ← mat4.identity (mMatrix self);
  modify_this (set_mMatrix (Some m));;
  self ← get_this;
  m ← mat4.translate (mMatrix self) (position self);
  modify_this (set_mMatrix (Some m));;
  (* Disable depth testing. *)
  gl.disable DEPTH_TEST;;
  (* Set our shader and geometry. *)
  self ← get_this;
  gl.useProgram (shader self);;
  gl.bindBuffer ARRAY_BUFFER (vBuffer self);;
  sh ← defined "this.shader" (shader self);
  vb ← defined "this.vBuffer" (vBuffer self);
  gl.vertexAttribPointer (vertexPositionAttribute sh) (itemSize vb) FLOAT false 0 0;;
  gl.bindBuffer ARRAY_BUFFER (tBuffer self);;
  tb ← defined "this.tBuffer" (tBuffer self);
  gl.vertexAttribPointer (vertexCoordsAttribute sh) (itemSize tb) FLOAT false 0 0;;
  (* Activate the skybox texture. *)
  gl.activeTexture TEXTURE0;;
  gl.bindTexture (texture self);;
  gl.uniform1i (samplerUniform sh) 0;;
  (* We will be rendering from our index buffer. *)
  gl.bindBuffer ELEMENT_ARRAY_BUFFER (iBuffer self);;
  (* Set our projection matrix. *)
  gl.uniformMatrix4fv (pMatrixUniform sh) false pMatrix;;
  (* Set our model-view matrix. *)
  mv ← mat4.multiply vMatrix (mMatrix self) (mvMatrix self);
  modify_this (set_mvMatrix (Some mv));;
  self ← get_this;
  mv ← defined "this.mvMatrix" (mvMatrix self);
  gl.uniformMatrix4fv (mvMatrixUniform sh) false mv;;
  (* Render our terrain. *)
  ib ← defined "this.iBuffer" (iBuffer self);
  gl.drawElements TRIANGLES (numItems ib) UNSIGNED_SHORT 0;;
  (* Re-enable depth testing. *)
  gl.enable DEPTH_TEST.

(** ** What the host delivers to the component: frames and the image load *)

Inductive event :=
| Frame (pMatrix vMatrix : mat4)
| ImageLoaded (pic : picture).

(** The load callback fires only on an element that has both a handler
    and a source. *)
Definition image_loaded (pic : picture) : JS unit :=
  fun env =>
    match image env with
    | Some (MkImage true (Some _)) => onload pic env
    | _ => (Normal tt, env)
    end.

Definition deliver (ev : event) : JS unit :=
  match ev with
  | Frame pMatrix vMatrix => render pMatrix vMatrix
  | ImageLoaded pic => image_loaded pic
  end.

(** The host goes on after an operation that threw: its effects up to
    the throw stay. *)
Fixpoint run (evs : list event) (env : Env) : Env :=
  match evs with
  | [] => env
  | ev :: rest => run rest (snd (deliver ev env))
  end.

(** ** Predicates on instances and states *)

Definition slots_resolved (sh : WebGLProgram) : Prop :=
  pMatrixUniform sh = Some (UniformLocation (prog_id sh) "uPMatrix")
  ∧ mvMatrixUniform sh = Some (UniformLocation (prog_id sh) "uMVMatrix")
  ∧ samplerUniform sh = Some (UniformLocation (prog_id sh) "uSampler").

(** Every field that the constructor assigns is there, with the
    properties the constructor gave the wrapper objects. *)
Definition initialised (o : Skybox) : Prop :=
  (∃ sh, shader o = Some sh ∧ slots_resolved sh)
  ∧ is_Some (texture o)
  ∧ (∃ h, vBuffer o = Some (MkBuffer h (Some 3) (Some 24)))
  ∧ (∃ h, tBuffer o = Some (MkBuffer h (Some 2) (Some 24)))
  ∧ (∃ h, iBuffer o = Some (MkBuffer h (Some 1) (Some 36)))
  ∧ is_Some (mMatrix o)
  ∧ is_Some (mvMatrix o)
  ∧ is_Some (position o).

(** The [try] block of [new GLSkybox(gl)], entered in [env0], completes
    in [env1] without a throw. *)
Definition constructed_from (env0 env1 : Env) : Prop :=
  GLSkybox_body (set_this empty_skybox env0) = (Normal tt, env1).

Definition placeholder_texture : texture_state :=
  TextureState (Some (Pixels 1 1 RGBA (Uint8Array [0; 0; 200; 255]))) LINEAR NEAREST_MIPMAP_LINEAR.

Definition translation_matrix (pos : vec3) : mat4 :=
  [1; 0; 0; 0;   0; 1; 0; 0;   0; 0; 1; 0;
   at_index pos 0; at_index pos 1; at_index pos 2; 1]%Q.

(** Entry in row [r] and column [c] of a column-major matrix. *)
Definition entry (m : mat4) (r c : nat) : Q := at_index m (4 * c + r).

Definition numbers_eq (a b : list Q) : Prop := Forall2 Qeq a b.

(** ** The texture atlas (lines 45-56)

    The layout that the source documents, rows from the top of the
    picture:
<<
      EM TO EM EM
      LE FR RI BA
      EM BO EM EM
      EM EM EM EM
>>
    [onload] uploads the picture flipped, so [v = 1] is its top edge:
    the row [r] from the top covers [(3 - r) / 4 <= v <= (4 - r) / 4],
    the column [c] covers [c / 4 <= u <= (c + 1) / 4]. *)

Inductive cell := EM | TO | LE | FR | RI | BA | BO.

#[global] Instance cell_eq_dec : EqDecision cell.
Proof. solve_decision. Defined.

Definition atlas : list (list cell) :=
  [ [EM; TO; EM; EM];
    [LE; FR; RI; BA];
    [EM; BO; EM; EM];
    [EM; EM; EM; EM] ].

Inductive face := Front | Back | Top | Bottom | Left | Right.

(** The place of a face's block in [vertices], [coords] and [indices]. *)
Definition face_index (f : face) : nat :=
  match f with
  | Front => 0 | Back => 1 | Top => 2 | Bottom => 3 | Left => 4 | Right => 5
  end%nat.

Definition face_cell (f : face) : cell :=
  match f with
  | Front => FR | Back => BA | Top => TO | Bottom => BO | Left => LE | Right => RI
  end.

Fixpoint index_of (c : cell) (l : list cell) : option nat :=
  match l with
  | [] => None
  | x :: rest => if decide (x = c) then Some 0%nat else S <$> index_of c rest
  end.

(** Column and row (from the top) of the cell in the atlas. *)
Fixpoint find_cell (c : cell) (rows : list (list cell)) : option (nat * nat) :=
  match rows with
  | [] => None
  | row :: rest =>
      match index_of c row with
      | Some col => Some (col, 0%nat)
      | None => (fun cr => (fst cr, S (snd cr))) <$> find_cell c rest
      end
  end.

Definition quadrant (f : face) : option (nat * nat) := find_cell (face_cell f) atlas.

Fixpoint pairs (l : list Q) : list (Q * Q) :=
  match l with
  | u :: v :: rest => (u, v) :: pairs rest
  | _ => []
  end.

(** The four (u, v) pairs of a face. *)
Definition face_coords (f : face) : list (Q * Q) :=
  pairs (take 8 (drop (8 * face_index f) coords)).

Definition within (lo hi x : Q) : bool := Qle_bool lo x && Qle_bool x hi.

Definition in_quadrant (cr : nat * nat) (uv : Q * Q) : bool :=
  let col := Z.of_nat (fst cr) in
  let row := Z.of_nat (snd cr) in
  within (col # 4) ((col + 1) # 4) (fst uv) && within ((3 - row) # 4) ((4 - row) # 4) (snd uv).

(** ** Effects of the operations, as the theorems state them *)

(** What stays as it was across [render], whether it returns or throws. *)
Definition render_frame (env env' : Env) : Prop :=
  shader (this env') = shader (this env)
  ∧ texture (this env') = texture (this env)
  ∧ vBuffer (this env') = vBuffer (this env)
  ∧ tBuffer (this env') = tBuffer (this env)
  ∧ iBuffer (this env') = iBuffer (this env)
  ∧ position (this env') = position (this env)
  ∧ (is_Some (mMatrix (this env)) -> is_Some (mMatrix (this env')))
  ∧ (is_Some (mvMatrix (this env)) -> is_Some (mvMatrix (this env')))
  ∧ objects (gl env') = objects (gl env)
  ∧ unpack_flip_y (gl env') = unpack_flip_y (gl env)
  ∧ console env' = console env
  ∧ image env' = image env.

(** The state in which [render] returns. *)
Definition render_post (pMatrix vMatrix : mat4) (env env' : Env) : Prop :=
  ∃ sh vb tb ib m0 mv0 pos,
    this env = MkSkybox (Some sh) (texture (this env)) (Some vb) (Some tb) (Some ib)
                 (Some m0) (Some mv0) (Some pos)
    ∧ let model := mat4.translated identity_matrix pos in
      let mv := mat4.product vMatrix model in
      this env' = set_mvMatrix (Some mv) (set_mMatrix (Some model) (this env))
      ∧ caps (gl env') DEPTH_TEST = true
      ∧ draws (gl env')
        = draws (gl env)
          ++ [DrawElements TRIANGLES (default 0 (numItems ib)) UNSIGNED_SHORT 0 false]
      ∧ current_program (gl env') = Some (prog_id sh)
      ∧ uniforms (gl env')
        = store_uniform (mvMatrixUniform sh) (UniformMatrix4 mv) (Some (prog_id sh))
            (store_uniform (pMatrixUniform sh) (UniformMatrix4 pMatrix) (Some (prog_id sh))
               (store_uniform (samplerUniform sh) (UniformInt 0) (Some (prog_id sh))
                  (uniforms (gl env))))
      ∧ active_texture (gl env') = TEXTURE0
      ∧ texture_2d (gl env') !! TEXTURE0 = texture (this env)
      ∧ element_array_buffer (gl env') = Some (buf_id ib).

(** What stays as it was across [onload], whether it returns or throws. *)
Definition onload_frame (env env' : Env) : Prop :=
  this env' = this env
  ∧ (unpack_flip_y (gl env) = true -> unpack_flip_y (gl env') = true)
  ∧ caps (gl env') = caps (gl env)
  ∧ draws (gl env') = draws (gl env)
  ∧ active_texture (gl env') = active_texture (gl env)
  ∧ console env' = console env
  ∧ image env' = image env.

(** The state in which [onload] returns. *)
Definition onload_post (pic : picture) (env env' : Env) : Prop :=
  unpack_flip_y (gl env') = true
  ∧ bound_texture (gl env') = None
  ∧ (forall t ts, texture (this env) = Some t ->
       objects (gl env) !! t = Some (TextureObject ts) ->
       objects (gl env') !! t
       = Some (TextureObject (TextureState (Some (FromPicture RGBA true pic)) LINEAR LINEAR))).

(** The state in which the [try] block of the constructor completes,
    when it was entered in [env0] with [n] as the next free handle. *)
Definition constructed_post (env0 env1 : Env) : Prop :=
  let n := next_handle (gl env0) in
  ∃ a1 a2,
    this env1
    = MkSkybox
        (Some (MkProgram n (Some a1) (Some a2)
                 (Some (UniformLocation n "uPMatrix"))
                 (Some (UniformLocation n "uMVMatrix"))
                 (Some (UniformLocation n "uSampler"))))
        (Some (3 + n)%nat)
        (Some (MkBuffer (4 + n)%nat (Some 3) (Some 24)))
        (Some (MkBuffer (5 + n)%nat (Some 2) (Some 24)))
        (Some (MkBuffer (6 + n)%nat (Some 1) (Some 36)))
        (Some mat4.create) (Some mat4.create) (Some (vec3.create [0.0; 0.0; 0.0]%Q))
    ∧ objects (gl env1) !! (3 + n)%nat = Some (TextureObject placeholder_texture)
    ∧ objects (gl env1) !! (4 + n)%nat
      = Some (BufferObject (Some (Float32Array vertices)) (Some STATIC_DRAW))
    ∧ objects (gl env1) !! (5 + n)%nat
      = Some (BufferObject (Some (Float32Array coords)) (Some STATIC_DRAW))
    ∧ objects (gl env1) !! (6 + n)%nat
      = Some (BufferObject (Some (Uint16Array indices)) (Some STATIC_DRAW))
    ∧ image env1 = Some (MkImage true (Some skybox_image))
    ∧ console env1 = console env0.

(** The part of the instance that no operation of the component writes
    after construction. *)
Definition same_instance (env env' : Env) : Prop :=
  shader (this env') = shader (this env)
  ∧ texture (this env') = texture (this env)
  ∧ vBuffer (this env') = vBuffer (this env)
  ∧ tBuffer (this env') = tBuffer (this env)
  ∧ iBuffer (this env') = iBuffer (this env)
  ∧ position (this env') = position (this env)
  ∧ (is_Some (mMatrix (this env)) -> is_Some (mMatrix (this env')))
  ∧ (is_Some (mvMatrix (this env)) -> is_Some (mvMatrix (this env'))).

(** A run of frames only: the image load has not completed. *)
Definition frames (l : list (mat4 * mat4)) : list event :=
  map (fun pv => Frame (fst pv) (snd pv)) l.

(** The matrix product in the words of the spec, "view x model": the
    entry in row [r] and column [c] of [a x b] is the sum over [k] of
    [a(r, k) * b(k, c)]. *)
Definition row_by_column (a b : mat4) (r c : nat) : Q :=
  foldr Qplus 0%Q (map (fun k => entry a r k * entry b k c)%Q (seq 0 4)).

(** ** A sample host state *)

Definition sample_gl : GLState :=
  MkGL (fun _ => false) None None None 3%nat ∅ false ∅ ∅ [] ∅ [] 1%nat
    (<["aVertexPosition" := 0]> (<["aVertexCoords" := 1]> ∅)) [].

Definition sample_env : Env := MkEnv empty_skybox sample_gl [] None [].

Definition sample_skybox : Env := snd (new_GLSkybox sample_env).

(** A host in which the second platform call of the constructor, the
    load of the fragment shader, throws. *)
Definition sample_failing : Env :=
  MkEnv empty_skybox sample_gl [] None [None; Some "shader compile error"%string].

(** The host has moved the skybox to the camera. *)
Definition sample_positioned : Env :=
  set_this (set_position (Some [2; 3; 5]%Q) (this sample_skybox)) sample_skybox.

Definition sample_picture : picture := Picture 1 1 [[10; 20; 30; 255]].

Definition sample_view : mat4 :=
  [0; 0; -1; 0;   0; 1; 0; 0;   1; 0; 0; 0;   2; 3; 5; 1]%Q.

(** ** Footprints of the operations *)

(** What [render] leaves alone on every path, beyond [render_frame]:
    handle allocation, the linker's table, the enabled attribute
    arrays, every capability but depth testing, and the texture bound
    on every unit but unit 0. *)
Definition render_footprint (env env' : Env) : Prop :=
  next_handle (gl env') = next_handle (gl env)
  ∧ locations (gl env') = locations (gl env)
  ∧ enabled_attribs (gl env') = enabled_attribs (gl env)
  ∧ (forall c, c <> DEPTH_TEST -> caps (gl env') c = caps (gl env) c)
  ∧ (forall u, u <> TEXTURE0 -> texture_2d (gl env') !! u = texture_2d (gl env) !! u).

(** What [onload] leaves alone on every path, and the three things it
    may write: the object of the instance's texture, the texture bound
    on the active unit, and the unpack flag, which it can only set. *)
Definition onload_footprint (env env' : Env) : Prop :=
  this env' = this env
  ∧ caps (gl env') = caps (gl env)
  ∧ current_program (gl env') = current_program (gl env)
  ∧ array_buffer (gl env') = array_buffer (gl env)
  ∧ element_array_buffer (gl env') = element_array_buffer (gl env)
  ∧ active_texture (gl env') = active_texture (gl env)
  ∧ uniforms (gl env') = uniforms (gl env)
  ∧ enabled_attribs (gl env') = enabled_attribs (gl env)
  ∧ attrib_pointers (gl env') = attrib_pointers (gl env)
  ∧ draws (gl env') = draws (gl env)
  ∧ next_handle (gl env') = next_handle (gl env)
  ∧ console env' = console env
  ∧ image env' = image env
  ∧ (forall u, u <> active_texture (gl env) ->
       texture_2d (gl env') !! u = texture_2d (gl env) !! u)
  ∧ (forall h, texture (this env) <> Some h ->
       objects (gl env') !! h = objects (gl env) !! h)
  ∧ locations (gl env') = locations (gl env)
  ∧ draw_contexts (gl env') = draw_contexts (gl env)
  ∧ (unpack_flip_y (gl env') = unpack_flip_y (gl env) ∨ unpack_flip_y (gl env') = true).

(** The attribute pointers and bindings with which [render] returns. *)
Definition render_bindings (env env' : Env) : Prop :=
  ∃ sh vb tb,
    shader (this env) = Some sh ∧ vBuffer (this env) = Some vb ∧ tBuffer (this env) = Some tb
    ∧ array_buffer (gl env') = Some (buf_id tb)
    ∧ attrib_pointers (gl env')
      = (let i := default 0 (vertexCoordsAttribute sh) in
         let ps :=
           let j := default 0 (vertexPositionAttribute sh) in
           if 0 <=? j
           then <[j := AttribPointer (Some (buf_id vb)) (default 0 (itemSize vb)) FLOAT false 0 0]>
                  (attrib_pointers (gl env))
           else attrib_pointers (gl env) in
         if 0 <=? i
         then <[i := AttribPointer (Some (buf_id tb)) (default 0 (itemSize tb)) FLOAT false 0 0]> ps
         else ps).

(** How a [render] on an initialised instance can throw: the error is
    the one a platform call threw.  Thrown by the first call,
    [gl.disable], it leaves the context as it was; thrown by a later
    call, it leaves depth testing off. *)
Definition render_throws (env : Env) (err : string) (env' : Env) : Prop :=
  In (Some err) (plan env)
  ∧ (forall e rest, plan env = Some e :: rest -> err = e ∧ gl env' = gl env)
  ∧ (forall rest, plan env = None :: rest ->
       caps (gl env') DEPTH_TEST = false ∧ In (Some err) rest).

(** The part of the context that the constructor reaches when its
    [try] block completes, entered with [n] as the next free handle. *)
Definition construction_state (env0 env1 : Env) : Prop :=
  let n := next_handle (gl env0) in
  shader (this env1)
  = Some (MkProgram n
            (Some (default (-1) (locations (gl env0) !! "aVertexPosition")))
            (Some (default (-1) (locations (gl env0) !! "aVertexCoords")))
            (Some (UniformLocation n "uPMatrix"))
            (Some (UniformLocation n "uMVMatrix"))
            (Some (UniformLocation n "uSampler")))
  ∧ objects (gl env1) !! n = Some (ProgramObject [(1 + n)%nat; (2 + n)%nat] true)
  ∧ objects (gl env1) !! (1 + n)%nat
    = Some (ShaderObject FRAGMENT_SHADER "./shaders/GLSkyboxF.c")
  ∧ objects (gl env1) !! (2 + n)%nat
    = Some (ShaderObject VERTEX_SHADER "./shaders/GLSkyboxV.c")
  ∧ current_program (gl env1) = Some n
  ∧ array_buffer (gl env1) = Some (5 + n)%nat
  ∧ element_array_buffer (gl env1) = Some (6 + n)%nat
  ∧ bound_texture (gl env1) = Some (3 + n)%nat
  ∧ next_handle (gl env1) = (7 + n)%nat
  ∧ (forall a, locations (gl env0) !! "aVertexPosition" = Some a -> 0 <= a ->
       In a (enabled_attribs (gl env1)))
  ∧ (forall a, locations (gl env0) !! "aVertexCoords" = Some a -> 0 <= a ->
       In a (enabled_attribs (gl env1))).

(** What the constructor leaves alone on every path, and the handles
    it may take. *)
Definition construction_footprint (env0 env1 : Env) : Prop :=
  let n := next_handle (gl env0) in
  caps (gl env1) = caps (gl env0)
  ∧ unpack_flip_y (gl env1) = unpack_flip_y (gl env0)
  ∧ draws (gl env1) = draws (gl env0)
  ∧ uniforms (gl env1) = uniforms (gl env0)
  ∧ attrib_pointers (gl env1) = attrib_pointers (gl env0)
  ∧ active_texture (gl env1) = active_texture (gl env0)
  ∧ locations (gl env1) = locations (gl env0)
  ∧ (n <= next_handle (gl env1) <= 7 + n)%nat
  ∧ (forall u, u <> active_texture (gl env0) ->
       texture_2d (gl env1) !! u = texture_2d (gl env0) !! u)
  ∧ (forall h, (h < n ∨ 7 + n <= h)%nat ->
       objects (gl env1) !! h = objects (gl env0) !! h).

(** ** The cube (lines 35-43 and 66-74) *)

(** The [i]-th vertex of the vertex array. *)
Definition vertex (i : nat) : Q * Q * Q :=
  (at_index vertices (3 * i), at_index vertices (3 * i + 1), at_index vertices (3 * i + 2)).

Definition face_vertices (f : face) : list (Q * Q * Q) :=
  map vertex (seq (4 * face_index f) 4).

Definition face_indices (f : face) : list Z :=
  take 6 (drop (6 * face_index f) indices).

Inductive axis := AxisX | AxisY | AxisZ.

Definition coordinate (a : axis) (v : Q * Q * Q) : Q :=
  match a with
  | AxisX => fst (fst v)
  | AxisY => snd (fst v)
  | AxisZ => snd v
  end.

(** The side of the cube that the vertices labelled with a face lie on. *)
Definition face_plane (f : face) : axis * Q :=
  match f with
  | Front => (AxisZ, -1) | Back => (AxisZ, 1)
  | Top => (AxisY, 1) | Bottom => (AxisY, -1)
  | Left => (AxisX, -1) | Right => (AxisX, 1)
  end%Q.

Definition vertex_eqb (v w : Q * Q * Q) : bool :=
  Qeq_bool (fst (fst v)) (fst (fst w)) && Qeq_bool (snd (fst v)) (snd (fst w))
  && Qeq_bool (snd v) (snd w).

Definition uv_eqb (p q : Q * Q) : bool :=
  Qeq_bool (fst p) (fst q) && Qeq_bool (snd p) (snd q).

Fixpoint pairwise_distinct {A} (eqb : A -> A -> bool) (l : list A) : bool :=
  match l with
  | [] => true
  | x :: rest => forallb (fun y => negb (eqb x y)) rest && pairwise_distinct eqb rest
  end.

(** The 24 vertices, and the 8 corners of the cube [-1, 1]^3. *)
Definition all_vertices : list (Q * Q * Q) := map vertex (seq 0 24).

Definition cube_corners : list (Q * Q * Q) :=
  x ← [-1; 1]%Q; y ← [-1; 1]%Q; z ← [-1; 1]%Q; [(x, y, z)].

(** [x] is a coordinate of a corner: 1 or -1. *)
Definition is_unit (x : Q) : bool := Qeq_bool x 1 || Qeq_bool x (-1).

(** [uv] is a corner of the quadrant in column [fst cr] and row
    [snd cr] (from the top) of the atlas. *)
Definition on_quadrant_corner (cr : nat * nat) (uv : Q * Q) : bool :=
  let col := Z.of_nat (fst cr) in
  let row := Z.of_nat (snd cr) in
  (Qeq_bool (fst uv) (col # 4) || Qeq_bool (fst uv) ((col + 1) # 4))
  && (Qeq_bool (snd uv) ((3 - row) # 4) || Qeq_bool (snd uv) ((4 - row) # 4)).

(** ** More sample states *)

(** The sample instance once its picture has loaded. *)
Definition sample_loaded : Env := snd (onload sample_picture sample_skybox).

(** The sample instance after a frame, in a host in which the third
    platform call of the next operation throws. *)
Definition sample_faulty : Env :=
  set_plan [None; None; Some "context lost"%string]
    (snd (render identity_matrix identity_matrix sample_skybox)).

(** A host in which the first buffer allocation of the constructor, its
    eighteenth platform call, throws; and the instance that this failed
    construction leaves. *)
Definition sample_buffer_failure : Env :=
  MkEnv empty_skybox sample_gl [] None
    (replicate 17 None ++ [Some "out of memory"%string]).

Definition sample_half_built : Env := snd (new_GLSkybox sample_buffer_failure).

(** The sample instance in a context in which another component has
    unbound every texture. *)
Definition sample_unbound : Env :=
  set_gl (set_texture_2d ∅ (gl sample_skybox)) sample_skybox.

(** The instance that the failed construction of [sample_failing] leaves. *)
Definition sample_failed : Env := snd (new_GLSkybox sample_failing).

(** ** A weakest-precondition calculus for [JS]

    [wp m Q E env]: running [m] from [env] either returns normally in a
    state that satisfies [Q] or throws in a state that satisfies [E]. *)

Definition wp {A} (m : JS A) (Q : A -> Env -> Prop) (E : string -> Env -> Prop) (env : Env) : Prop :=
  match m env with
  | (Normal a, env') => Q a env'
  | (Throw err, env') => E err env'
  end.

Lemma wp_ret {A} (a : A) Q E env : Q a env -> wp (mret a) Q E env.
Proof. done. Qed.

Lemma wp_bind {A B} (m : JS A) (f : A -> JS B) Q E env :
  wp m (fun a => wp (f a) Q E) E env -> wp (m ≫= f) Q E env.
Proof.
  unfold wp, mbind, JS_bind. by destruct (m env) as [[a|err] env'].
Qed.

Lemma wp_mono {A} (m : JS A) (Q Q' : A -> Env -> Prop) (E E' : string -> Env -> Prop) env :
  wp m Q E env ->
  (forall a env', Q a env' -> Q' a env') ->
  (forall err env', E err env' -> E' err env') ->
  wp m Q' E' env.
Proof.
  unfold wp. destruct (m env) as [[a|err] env']; auto.
Qed.

Lemma wp_throw {A} err (Q : A -> Env -> Prop) E env : E err env -> wp (throw err) Q E env.
Proof. done. Qed.

Lemma wp_defined {A} what (o : option A) Q E env :
  (forall a, o = Some a -> Q a env) ->
  (o = None -> forall err, E err env) ->
  wp (defined what o) Q E env.
Proof.
  intros HQ HE. destruct o as [a|]; [apply HQ | apply HE]; done.
Qed.

Lemma wp_get_this Q E env : Q (this env) env -> wp get_this Q E env.
Proof. done. Qed.

Lemma wp_modify_this f Q E env :
  Q tt (set_this (f (this env)) env) -> wp (modify_this f) Q E env.
Proof. done. Qed.

(** A platform call either throws, changing nothing but the plan, or
    has its effect on the context.  With an empty plan it cannot throw. *)
Lemma wp_platform {A} (call : GLState -> A * GLState) Q E env :
  (forall pl, (plan env = [] -> pl = []) ->
     Q (fst (call (gl env))) (set_gl (snd (call (gl env))) (set_plan pl env))) ->
  (forall pl err, plan env <> [] -> E err (set_plan pl env)) ->
  wp (platform call) Q E env.
Proof.
  intros HQ HE. unfold wp, platform.
  destruct env as [o s c i pl]; simpl in *.
  destruct pl as [|[err|] rest]; simpl.
  - specialize (HQ [] (fun _ => eq_refl)). by destruct (call s).
  - by apply (HE rest err).
  - specialize (HQ rest). destruct (call s); apply HQ; done.
Qed.

Lemma wp_elim {A} (m : JS A) Q E env a env' :
  wp m Q E env -> m env = (Normal a, env') -> Q a env'.
Proof. unfold wp. intros H Heq. by rewrite Heq in H. Qed.

Lemma wp_elim_throw {A} (m : JS A) Q E env err env' :
  wp m Q E env -> m env = (Throw err, env') -> E err env'.
Proof. unfold wp. intros H Heq. by rewrite Heq in H. Qed.

Lemma wp_total {A} (m : JS A) Q env :
  wp m Q (fun _ _ => False) env -> exists a env', m env = (Normal a, env') ∧ Q a env'.
Proof.
  unfold wp. destruct (m env) as [[a|err] env']; [eauto | done].
Qed.

Lemma wp_snd {A} (m : JS A) (P : Env -> Prop) env :
  wp m (fun _ => P) (fun _ => P) env -> P (snd (m env)).
Proof. unfold wp. by destruct (m env) as [[a|err] env']. Qed.

Lemma wp_new_Image Q E env :
  Q tt (set_image (Some (MkImage false None)) env) -> wp new_Image Q E env.
Proof. done. Qed.

Lemma wp_image_set_onload Q E env :
  Q tt (set_image ((fun i => MkImage true (img_src i)) <$> image env) env) ->
  wp image_set_onload Q E env.
Proof. done. Qed.

Lemma wp_image_set_src src Q E env :
  Q tt (set_image ((fun i => MkImage (img_onload i) (Some src)) <$> image env) env) ->
  wp (image_set_src src) Q E env.
Proof. done. Qed.

(** ** Symbolic execution *)

Ltac wp_simpl :=
  cbv [this gl console image plan set_this set_gl set_plan set_console set_image fst snd
       caps current_program array_buffer element_array_buffer active_texture texture_2d
       unpack_flip_y objects uniforms enabled_attribs attrib_pointers draws next_handle locations
       draw_contexts set_draw_contexts current_draw_context
       set_caps set_current_program set_array_buffer set_element_array_buffer set_active_texture
       set_texture_2d set_unpack_flip_y set_objects set_uniforms set_enabled_attribs
       set_attrib_pointers set_draws set_next_handle
       shader texture vBuffer tBuffer iBuffer mMatrix mvMatrix position
       set_shader set_texture set_vBuffer set_tBuffer set_iBuffer set_mMatrix set_mvMatrix set_position
       buf_id itemSize numItems with_itemSize with_numItems
       prog_id vertexPositionAttribute vertexCoordsAttribute
       pMatrixUniform mvMatrixUniform samplerUniform
       img_onload img_src
       buffer_binding bound_texture fmap option_fmap option_map] in *.

(** The plan stays empty once it is. *)
Ltac plan_step pl Hpl :=
  first [ specialize (Hpl eq_refl); subst pl | idtac ].

Ltac wp_step :=
  lazymatch goal with
  | |- wp (_ ≫= _) _ _ _ => apply wp_bind
  | |- wp (mret _) _ _ _ => apply wp_ret
  | |- wp get_this _ _ _ => apply wp_get_this
  | |- wp (modify_this _) _ _ _ => apply wp_modify_this
  | |- wp (defined _ _) _ _ _ =>
      apply wp_defined; [intros ? ?; simplify_eq | intros ? ?; try discriminate]
  | |- wp (throw _) _ _ _ => apply wp_throw
  | |- wp (assign_prop _ _ _ _) _ _ _ => unfold assign_prop
  | |- wp initShader _ _ _ => unfold initShader
  | |- wp initTexture _ _ _ => unfold initTexture
  | |- wp (mat4.identity _) _ _ _ => unfold mat4.identity
  | |- wp (mat4.translate _ _) _ _ _ => unfold mat4.translate
  | |- wp (mat4.multiply _ _ _) _ _ _ => unfold mat4.multiply
  | |- wp new_Image _ _ _ => apply wp_new_Image
  | |- wp image_set_onload _ _ _ => apply wp_image_set_onload
  | |- wp (image_set_src _) _ _ _ => apply wp_image_set_src
  | |- wp _ _ _ _ =>
      apply wp_platform;
      [ let pl := fresh "pl" in let Hpl := fresh "Hpl" in
        intros pl Hpl; wp_simpl; plan_step pl Hpl
      | let pl := fresh "pl" in let Hne := fresh "Hne" in
        intros pl ? Hne; wp_simpl ]
  end; wp_simpl.

(** Lookups in the object store after allocations at fresh handles. *)
Ltac map_simpl :=
  repeat first [ rewrite lookup_insert_eq | rewrite lookup_insert_ne by lia ].

(** A throw is impossible when the plan was empty from the start. *)
Ltac no_fault :=
  repeat match goal with
         | H : ?l = [] -> _ |- _ => specialize (H eq_refl); subst
         | H : @nil _ = [] -> _ |- _ => specialize (H eq_refl); subst
         end;
  try congruence; try discriminate.

(** ** [render] *)

Lemma render_spec pMatrix vMatrix env :
  wp (render pMatrix vMatrix)
    (fun _ env' => render_post pMatrix vMatrix env env' ∧ render_frame env env')
    (fun _ env' => render_frame env env' ∧ ¬ (initialised (this env) ∧ plan env = []))
    env.
Proof.
  destruct env as [[sh t vb tb ib m mv pos] [] c i pl]. unfold render.
  repeat wp_step.
  all: unfold render_frame, render_post; wp_simpl.
  all: try (split; [ repeat split; eauto; done | ]).
  all: try (intros [(Hsh & Ht & Hvb & Htb & Hib & Hm & Hmv & Hpos) Hplan];
            wp_simpl; subst;
            try (by destruct Hsh as (? & ? & _)); try (by destruct Hvb); try (by destruct Htb);
            try (by destruct Hib); try (by destruct Hm); try (by destruct Hmv);
            try (by destruct Hpos); by no_fault).
  split; [ | repeat split; eauto ].
  do 7 eexists. split; [reflexivity | ]. cbn zeta.
  repeat split; try reflexivity.
  unfold TEXTURE0. destruct t as [h|]; [apply lookup_insert_eq | apply lookup_delete_eq].
Qed.

Lemma render_returns pMatrix vMatrix env env' :
  render pMatrix vMatrix env = (Normal tt, env') ->
  render_post pMatrix vMatrix env env' ∧ render_frame env env'.
Proof. intros H. exact (wp_elim _ _ _ _ _ _ (render_spec pMatrix vMatrix env) H). Qed.

Lemma render_keeps pMatrix vMatrix env :
  render_frame env (snd (render pMatrix vMatrix env)).
Proof.
  apply (wp_snd (render pMatrix vMatrix) (render_frame env)).
  eapply wp_mono; [apply render_spec | |]; simpl; tauto.
Qed.

Lemma render_total pMatrix vMatrix env :
  initialised (this env) -> plan env = [] ->
  exists env', render pMatrix vMatrix env = (Normal tt, env').
Proof.
  intros Hinit Hplan.
  destruct (wp_total (render pMatrix vMatrix)
              (fun _ env' => render_post pMatrix vMatrix env env' ∧ render_frame env env') env)
    as ([] & env' & Heq & _); [ | eauto ].
  eapply wp_mono; [apply render_spec | done | ]. simpl. tauto.
Qed.

(** ** [onload] *)

Lemma onload_spec pic env :
  wp (onload pic)
    (fun _ env' => onload_post pic env env' ∧ onload_frame env env')
    (fun _ env' => onload_frame env env')
    env.
Proof.
  destruct env as [[sh t vb tb ib m mv pos] [] c i pl]. unfold onload.
  repeat wp_step.
  all: unfold onload_frame, onload_post; wp_simpl.
  all: try (repeat split; eauto; done).
  split; [ | repeat split; eauto ].
  split; [done | split; [apply lookup_delete_eq | ] ].
  intros h ts [= ->] Hobj.
  rewrite !lookup_insert_eq. unfold update_bound_texture.
  rewrite Hobj, !lookup_insert_eq. done.
Qed.

Lemma onload_returns pic env env' :
  onload pic env = (Normal tt, env') -> onload_post pic env env' ∧ onload_frame env env'.
Proof. intros H. exact (wp_elim _ _ _ _ _ _ (onload_spec pic env) H). Qed.

Lemma onload_keeps pic env : onload_frame env (snd (onload pic env)).
Proof.
  apply (wp_snd (onload pic) (onload_frame env)).
  eapply wp_mono; [apply onload_spec | |]; simpl; tauto.
Qed.

Lemma image_loaded_keeps pic env : onload_frame env (snd (image_loaded pic env)).
Proof.
  unfold image_loaded. destruct (image env) as [[[] [src|]]|]; simpl;
    try (by repeat split).
  apply onload_keeps.
Qed.

(** ** Sequences of events *)

Lemma same_instance_refl env : same_instance env env.
Proof. by repeat split. Qed.

Lemma same_instance_trans env1 env2 env3 :
  same_instance env1 env2 -> same_instance env2 env3 -> same_instance env1 env3.
Proof.
  unfold same_instance. intros (?&?&?&?&?&?&?&?) (?&?&?&?&?&?&?&?).
  repeat split; try congruence; auto.
Qed.

Lemma deliver_same_instance ev env : same_instance env (snd (deliver ev env)).
Proof.
  destruct ev as [p v|pic]; unfold deliver.
  - destruct (render_keeps p v env) as (?&?&?&?&?&?&?&?&_). by repeat split.
  - destruct (image_loaded_keeps pic env) as (Hthis&_).
    unfold same_instance. rewrite Hthis. by repeat split.
Qed.

Lemma run_same_instance evs env : same_instance env (run evs env).
Proof.
  revert env. induction evs as [|ev evs IH]; intros env; simpl.
  - apply same_instance_refl.
  - eapply same_instance_trans; [apply deliver_same_instance | apply IH].
Qed.

Lemma same_instance_initialised env env' :
  same_instance env env' -> initialised (this env) -> initialised (this env').
Proof.
  unfold same_instance, initialised.
  intros (Hsh&Ht&Hvb&Htb&Hib&Hpos&Hm&Hmv) (?&?&?&?&?&?&?&?).
  rewrite Hsh, Ht, Hvb, Htb, Hib, Hpos. repeat split; auto.
Qed.

Lemma deliver_flip_y ev env :
  unpack_flip_y (gl env) = true -> unpack_flip_y (gl (snd (deliver ev env))) = true.
Proof.
  destruct ev as [p v|pic]; unfold deliver.
  - destruct (render_keeps p v env) as (_&_&_&_&_&_&_&_&_&Hflip&_). by rewrite Hflip.
  - by destruct (image_loaded_keeps pic env) as (_&Hflip&_).
Qed.

Lemma run_flip_y evs env :
  unpack_flip_y (gl env) = true -> unpack_flip_y (gl (run evs env)) = true.
Proof.
  revert env. induction evs as [|ev evs IH]; intros env H; simpl; [done|].
  apply IH. by apply deliver_flip_y.
Qed.

(** ** The constructor *)

Lemma GLSkybox_body_spec env0 :
  wp GLSkybox_body
    (fun _ env1 => constructed_post env0 env1)
    (fun _ env1 => position (this env1) = None ∧ console env1 = console env0)
    (set_this empty_skybox env0).
Proof.
  destruct env0 as [o [] c i pl]. unfold GLSkybox_body, empty_skybox.
  repeat (wp_step; map_simpl).
  all: try done.
  unfold constructed_post; wp_simpl. cbn [Nat.add].
  do 2 eexists. split; [reflexivity | ].
  unfold update_bound_texture. map_simpl. cbv iota. map_simpl.
  by repeat split.
Qed.

Lemma constructed_initialised env0 env1 :
  constructed_post env0 env1 -> initialised (this env1).
Proof.
  intros (a1 & a2 & Hthis & _). rewrite Hthis. unfold initialised; simpl.
  repeat split; eauto. eexists; split; [reflexivity | by repeat split].
Qed.

Lemma constructed_from_post env0 env1 :
  constructed_from env0 env1 -> constructed_post env0 env1.
Proof.
  intros H. exact (wp_elim _ _ _ _ _ _ (GLSkybox_body_spec env0) H).
Qed.

Lemma construction_total env0 :
  plan env0 = [] -> exists env1, constructed_from env0 env1.
Proof.
  intros Hplan. unfold constructed_from.
  destruct env0 as [o [] c i pl]. simpl in Hplan. subst pl.
  match goal with |- exists env1, ?m ?e = _ =>
    destruct (wp_total m (fun _ _ => True) e) as ([] & env1 & Heq & _); [ | eauto ]
  end.
  unfold GLSkybox_body, empty_skybox.
  repeat (wp_step; map_simpl).
  all: done.
Qed.

(** ** Matrices *)

Lemma product_entry_at vMatrix model r c :
  (r < 4)%nat -> (c < 4)%nat ->
  entry (mat4.product vMatrix model) r c = mat4.product_entry vMatrix model c r.
Proof.
  intros Hr Hc.
  do 4 (destruct r as [|r]; [ do 4 (destruct c as [|c]; [reflexivity | ]); lia | ]).
  lia.
Qed.

Lemma product_entry_row_by_column a b r c :
  (mat4.product_entry a b c r == row_by_column a b r c)%Q.
Proof.
  unfold mat4.product_entry, row_by_column, entry. cbn [seq map foldr].
  replace (4 * c + 0)%nat with (4 * c)%nat by lia.
  replace (4 * 0 + r)%nat with r by lia.
  replace (4 * 1 + r)%nat with (4 + r)%nat by lia.
  replace (4 * 2 + r)%nat with (8 + r)%nat by lia.
  replace (4 * 3 + r)%nat with (12 + r)%nat by lia.
  ring.
Qed.

Lemma translated_identity pos :
  numbers_eq (mat4.translated identity_matrix pos) (translation_matrix pos).
Proof.
  unfold numbers_eq, mat4.translated, translation_matrix, identity_matrix.
  cbn [at_index nth]. cbn.
  repeat (constructor; [ring | ]). constructor.
Qed.

Lemma identity_view_product vMatrix pos :
  numbers_eq vMatrix identity_matrix ->
  numbers_eq (mat4.product vMatrix (mat4.translated identity_matrix pos))
    (translation_matrix pos).
Proof.
  unfold numbers_eq, identity_matrix. intros H.
  repeat match goal with
         | H : Forall2 _ _ (_ :: _) |- _ =>
             apply Forall2_cons_inv_r in H as (? & ? & ? & H & ->)
         | H : Forall2 _ _ [] |- _ => apply Forall2_nil_inv_r in H as ->
         end.
  unfold mat4.product, mat4.product_entry, mat4.translated, translation_matrix, identity_matrix.
  cbn.
  repeat (constructor;
          [ repeat match goal with H : (_ == _)%Q |- _ => rewrite H; clear H end; ring | ]).
  constructor.
Qed.

(** ** Frames and the parts of the constructor *)

Lemma run_frames_objects l env :
  objects (gl (run (frames l) env)) = objects (gl env).
Proof.
  revert env. induction l as [|[p v] l IH]; intros env; simpl; [done | ].
  rewrite IH.
  by destruct (render_keeps p v env) as (_&_&_&_&_&_&_&_&Hobj&_).
Qed.

Lemma initShader_keeps_position env :
  position (this (snd (initShader env))) = position (this env).
Proof.
  apply (wp_snd initShader (fun env' => position (this env') = position (this env))).
  destruct env as [[sh t vb tb ib m mv pos] [] c i pl]. unfold initShader.
  repeat wp_step; done.
Qed.

Lemma initTexture_keeps_position env :
  position (this (snd (initTexture env))) = position (this env).
Proof.
  apply (wp_snd initTexture (fun env' => position (this env') = position (this env))).
  destruct env as [[sh t vb tb ib m mv pos] [] c i pl]. unfold initTexture.
  repeat wp_step; done.
Qed.

(** The draw call of [render] runs with the bindings and uniforms that
    [render] leaves on return: everything [render] binds and uploads,
    it binds and uploads before it draws. *)
Lemma render_draw_spec pMatrix vMatrix env :
  wp (render pMatrix vMatrix)
    (fun _ env' =>
       draw_contexts (gl env')
       = draw_contexts (gl env) ++ [current_draw_context (gl env')])
    (fun _ _ => True) env.
Proof.
  destruct env as [[sh t vb tb ib m mv pos] [] c i pl]. unfold render.
  repeat wp_step.
  all: try exact I.
  reflexivity.
Qed.

(** ** The claims *)

(** C1.  Whatever the state of the context when [render] is called -
    depth testing on or off - depth testing is on whenever [render]
    returns, and the draw call of that [render] ran with depth testing
    off: [render] disables it before it draws and enables it as its
    last call. *)
Theorem render_leaves_depth_test_enabled pMatrix vMatrix env env' :
  render pMatrix vMatrix env = (Normal tt, env') ->
  caps (gl env') DEPTH_TEST = true
  ∧ exists dc, draws (gl env') = draws (gl env) ++ [dc] ∧ dc_depth_test dc = false.
Proof.
  intros H. apply render_returns in H as [(sh & vb & tb & ib & m0 & mv0 & pos & _ & H) _].
  cbv zeta in H. destruct H as (_ & Hcaps & Hdraws & _).
  split; [exact Hcaps | ]. eexists. split; [exact Hdraws | reflexivity].
Qed.

Lemma render_leaves_depth_test_enabled_witness :
  caps (gl sample_skybox) DEPTH_TEST = false
  ∧ caps (gl (snd (render identity_matrix sample_view sample_skybox))) DEPTH_TEST = true.
Proof.
  split; [reflexivity | ].
  apply (render_leaves_depth_test_enabled identity_matrix sample_view sample_skybox
           (snd (render identity_matrix sample_view sample_skybox))).
  vm_compute. reflexivity.
Defined.

(** C2.  When [render] returns, the model matrix is the identity
    translated by the stored position, the model-view matrix is the
    product view x model - entry (r, c) is row r of the view against
    column c of the model - and that matrix is what the [uMVMatrix]
    uniform of the skybox program holds.  The model matrix is the pure
    translation matrix of the position, and so is the model-view matrix
    when the view is the identity. *)
Theorem render_model_view pMatrix vMatrix env env' sh pos :
  shader (this env) = Some sh ->
  slots_resolved sh ->
  position (this env) = Some pos ->
  render pMatrix vMatrix env = (Normal tt, env') ->
  let model := mat4.translated identity_matrix pos in
  exists mv,
    mMatrix (this env') = Some model
    ∧ mvMatrix (this env') = Some mv
    ∧ uniforms (gl env') !! (prog_id sh, "uMVMatrix") = Some (UniformMatrix4 mv)
    ∧ length mv = 16%nat
    ∧ (forall r c, (r < 4)%nat -> (c < 4)%nat ->
         (entry mv r c == row_by_column vMatrix model r c)%Q)
    ∧ numbers_eq model (translation_matrix pos)
    ∧ (numbers_eq vMatrix identity_matrix -> numbers_eq mv (translation_matrix pos)).
Proof.
  intros Hsh (HP & HMV & HS) Hpos H model.
  apply render_returns in H as [(sh' & vb & tb & ib & m0 & mv0 & pos' & Hthis & H) _].
  cbv zeta in H. destruct H as (Hthis' & _ & _ & _ & Hu & _).
  rewrite Hthis in Hsh, Hpos. simpl in Hsh, Hpos. simplify_eq.
  exists (mat4.product vMatrix model). rewrite Hthis', Hthis. simpl.
  split; [done | split; [done | ] ].
  split.
  { rewrite Hu, HMV. unfold store_uniform at 1.
    rewrite bool_decide_eq_true_2 by done. apply lookup_insert_eq. }
  split; [reflexivity | ].
  split.
  { intros r c Hr Hc. rewrite product_entry_at by done.
    apply product_entry_row_by_column. }
  split; [apply translated_identity | apply identity_view_product].
Qed.

Lemma render_model_view_witness :
  exists mv,
    mvMatrix (this (snd (render sample_view identity_matrix sample_positioned))) = Some mv
    ∧ numbers_eq mv [1; 0; 0; 0;  0; 1; 0; 0;  0; 0; 1; 0;  2; 3; 5; 1]%Q.
Proof.
  destruct (render_model_view sample_view identity_matrix sample_positioned
              (snd (render sample_view identity_matrix sample_positioned))
              (MkProgram 1%nat (Some 0) (Some 1)
                 (Some (UniformLocation 1%nat "uPMatrix"))
                 (Some (UniformLocation 1%nat "uMVMatrix"))
                 (Some (UniformLocation 1%nat "uSampler")))
              [2; 3; 5]%Q)
    as (mv & _ & Hmv & _ & _ & _ & _ & Hid).
  - reflexivity.
  - repeat split.
  - reflexivity.
  - vm_compute. reflexivity.
  - exists mv. split; [exact Hmv | ].
    apply Hid. unfold numbers_eq, identity_matrix.
    repeat (constructor; [reflexivity | ]). constructor.
Defined.

(** C3.  The mesh data fixed at construction: 72 floats, that is 24
    positions of 3 floats, 4 for each of the 6 faces; 36 indices, 2
    triangles for each face, the indices of a face pointing at the 4
    vertices of that face; every index between 0 and 23.  When the
    constructor completes, the vertex buffer and the index buffer hold
    exactly these data and are marked with 24 and 36 items. *)
Theorem mesh_fixture env0 env1 :
  constructed_from env0 env1 ->
  length vertices = (6 * 4 * 3)%nat
  ∧ length vertices = 72%nat
  ∧ length indices = (6 * 2 * 3)%nat
  ∧ length indices = 36%nat
  ∧ Forall (fun i => 0 <= i <= 23) indices
  ∧ (forall f, Forall (fun i => 4 * Z.of_nat (face_index f) <= i <= 4 * Z.of_nat (face_index f) + 3)
                 (take 6 (drop (6 * face_index f) indices)))
  ∧ (exists h, vBuffer (this env1) = Some (MkBuffer h (Some 3) (Some 24))
        ∧ objects (gl env1) !! h
          = Some (BufferObject (Some (Float32Array vertices)) (Some STATIC_DRAW)))
  ∧ (exists h, iBuffer (this env1) = Some (MkBuffer h (Some 1) (Some 36))
        ∧ objects (gl env1) !! h
          = Some (BufferObject (Some (Uint16Array indices)) (Some STATIC_DRAW))).
Proof.
  intros H. apply constructed_from_post in H as (a1 & a2 & Hthis & _ & Hv & _ & Hi & _).
  repeat split; try reflexivity.
  - unfold indices. repeat (constructor; [lia | ]). constructor.
  - intros f. destruct f; cbn; repeat (constructor; [lia | ]); constructor.
  - eexists. rewrite Hthis. split; [reflexivity | exact Hv].
  - eexists. rewrite Hthis. split; [reflexivity | exact Hi].
Qed.

Lemma mesh_fixture_witness :
  exists h, iBuffer (this sample_skybox) = Some (MkBuffer h (Some 1) (Some 36))
    ∧ objects (gl sample_skybox) !! h
      = Some (BufferObject (Some (Uint16Array indices)) (Some STATIC_DRAW)).
Proof.
  apply (mesh_fixture sample_env sample_skybox).
  vm_compute. reflexivity.
Defined.

(** C4.  Each face has a quadrant of the 4 x 4 atlas, and the 4 texture
    coordinates of the face all lie in it; those of the front face lie
    in [0.25, 0.50] x [0.50, 0.75]. *)
Theorem texture_coordinates_in_quadrant :
  (forall f, exists cr,
      quadrant f = Some cr
      ∧ length (face_coords f) = 4%nat
      ∧ forallb (in_quadrant cr) (face_coords f) = true)
  ∧ Forall (fun uv => (0.25 <= fst uv <= 0.50)%Q ∧ (0.50 <= snd uv <= 0.75)%Q)
      (face_coords Front)
  ∧ length coords = (2 * 24)%nat.
Proof.
  split; [ | split ].
  - intros f. destruct f; eexists; (split; [reflexivity | split; reflexivity]).
  - unfold face_coords. cbn.
    repeat (constructor; [ cbn; unfold Qle; cbn; lia | ]). constructor.
  - reflexivity.
Qed.

(** C5.  The constructor never throws.  When its [try] block throws -
    whichever call of it does - the constructor logs the error on the
    console and returns normally, in the state of the throw: the
    instance is left partially initialised. *)
Theorem constructor_swallows_exceptions env :
  fst (new_GLSkybox env) = Normal tt
  ∧ forall err env1,
      GLSkybox_body (set_this empty_skybox env) = (Throw err, env1) ->
      console (snd (new_GLSkybox env)) = console env ++ ["GLSkybox: " +:+ err]
      ∧ this (snd (new_GLSkybox env)) = this env1
      ∧ gl (snd (new_GLSkybox env)) = gl env1
      ∧ position (this env1) = None
      ∧ ¬ initialised (this env1).
Proof.
  assert (Hnew : new_GLSkybox env = GLSkybox (set_this empty_skybox env)) by reflexivity.
  rewrite Hnew. unfold GLSkybox, try_catch.
  pose proof (GLSkybox_body_spec env) as Hspec. unfold wp in Hspec.
  destruct (GLSkybox_body (set_this empty_skybox env)) as [[[]|err] env1].
  - split; [reflexivity | intros ? ? [=] ].
  - split; [reflexivity | ]. intros err' env1' [= <- <-].
    destruct Hspec as [Hpos Hcon]. simpl. rewrite Hcon.
    repeat split; try done.
    intros (_&_&_&_&_&_&_&Hp). rewrite Hpos in Hp. by destruct Hp.
Qed.

Lemma constructor_swallows_exceptions_witness :
  console (snd (new_GLSkybox sample_failing))
  = ["GLSkybox: shader compile error"]
  ∧ shader (this (snd (new_GLSkybox sample_failing))) = None.
Proof.
  destruct (constructor_swallows_exceptions sample_failing) as [_ H].
  destruct (H "shader compile error" (snd (GLSkybox_body (set_this empty_skybox sample_failing))))
    as (Hc & Ht & _).
  - vm_compute. reflexivity.
  - split; [exact Hc | rewrite Ht; reflexivity].
Defined.

(** C6.  When the constructor has completed and no image load has
    been delivered yet - after any number of frames - the skybox
    texture holds the 1 x 1 RGBA placeholder (0, 0, 200, 255): blue,
    with full alpha.  A [render] of the instance that returns binds
    that texture on unit 0, whatever was bound when it was called -
    also when other code has changed or cleared the bindings since -
    and leaves its content as it is. *)
Theorem placeholder_until_image_load env0 env1 l :
  constructed_from env0 env1 ->
  let env := run (frames l) env1 in
  exists t,
    texture (this env) = Some t
    ∧ objects (gl env) !! t
      = Some (TextureObject
                (TextureState (Some (Pixels 1 1 RGBA (Uint8Array [0; 0; 200; 255])))
                   LINEAR NEAREST_MIPMAP_LINEAR))
    ∧ (forall pMatrix vMatrix env',
         render pMatrix vMatrix env = (Normal tt, env') ->
         bound_texture (gl env') = Some t
         ∧ objects (gl env') !! t = objects (gl env) !! t)
    ∧ forall pMatrix vMatrix env2 env',
        texture (this env2) = Some t ->
        render pMatrix vMatrix env2 = (Normal tt, env') ->
        active_texture (gl env') = TEXTURE0
        ∧ texture_2d (gl env') !! TEXTURE0 = Some t
        ∧ bound_texture (gl env') = Some t
        ∧ objects (gl env') !! t = objects (gl env2) !! t
        ∧ exists dx, draw_contexts (gl env') = draw_contexts (gl env2) ++ [dx]
                     ∧ dx_texture dx = Some t.
Proof.
  intros H env. apply constructed_from_post in H as (a1 & a2 & Hthis & Ht & _).
  destruct (run_same_instance (frames l) env1) as (_ & Htex & _). fold env in Htex.
  rewrite Hthis in Htex. simpl in Htex.
  assert (Hany : forall p v env2 env',
            texture (this env2) = Some (3 + next_handle (gl env0))%nat ->
            render p v env2 = (Normal tt, env') ->
            active_texture (gl env') = TEXTURE0
            ∧ texture_2d (gl env') !! TEXTURE0 = Some (3 + next_handle (gl env0))%nat
            ∧ bound_texture (gl env') = Some (3 + next_handle (gl env0))%nat
            ∧ objects (gl env') !! (3 + next_handle (gl env0))%nat
              = objects (gl env2) !! (3 + next_handle (gl env0))%nat
            ∧ exists dx, draw_contexts (gl env') = draw_contexts (gl env2) ++ [dx]
                         ∧ dx_texture dx = Some (3 + next_handle (gl env0))%nat).
  { intros p v env2 env' Ht2 Hr.
    pose proof (wp_elim _ _ _ _ _ _ (render_draw_spec p v env2) Hr) as Hdx.
    apply render_returns in Hr as [(sh & vb & tb & ib & m0 & mv0 & pos & _ & Hp) Hf].
    cbv zeta in Hp. destruct Hp as (_ & _ & _ & _ & _ & Hact & Hb & _).
    destruct Hf as (_&_&_&_&_&_&_&_&Hobj&_).
    assert (Hbound : bound_texture (gl env') = Some (3 + next_handle (gl env0))%nat).
    { unfold bound_texture. by rewrite Hact, Hb. }
    split; [exact Hact | ]. split; [exact (eq_trans Hb Ht2) | ]. split; [exact Hbound | ].
    split; [by rewrite Hobj | ].
    eexists. split; [exact Hdx | exact Hbound]. }
  eexists. split; [exact Htex | ]. split.
  - unfold env. rewrite run_frames_objects. exact Ht.
  - split; [ | exact Hany ].
    intros p v env' Hr. destruct (Hany p v env env' Htex Hr) as (_ & _ & Hb & Ho & _).
    by split.
Qed.

Lemma placeholder_until_image_load_witness :
  bound_texture (gl sample_unbound) = None
  ∧ exists t,
      texture (this sample_skybox) = Some t
      ∧ bound_texture (gl (snd (render identity_matrix sample_view sample_unbound))) = Some t
      ∧ objects (gl (snd (render identity_matrix sample_view sample_unbound))) !! t
        = Some (TextureObject
                  (TextureState (Some (Pixels 1 1 RGBA (Uint8Array [0; 0; 200; 255])))
                     LINEAR NEAREST_MIPMAP_LINEAR)).
Proof.
  split; [vm_compute; reflexivity | ].
  destruct (placeholder_until_image_load sample_env sample_skybox []) as (t & H1 & H2 & _ & H3).
  - vm_compute. reflexivity.
  - vm_compute in H1. injection H1 as <-.
    exists 4%nat. split; [vm_compute; reflexivity | ].
    destruct (H3 identity_matrix sample_view sample_unbound
                (snd (render identity_matrix sample_view sample_unbound)))
      as (_ & _ & Hb & _).
    + vm_compute. reflexivity.
    + vm_compute. reflexivity.
    + split; [exact Hb | vm_compute; reflexivity].
Defined.

(** C7.  When the constructor has completed, the model matrix and the
    model-view matrix are the identity and the position is the zero
    vector. *)
Theorem construction_initial_transform env0 env1 :
  constructed_from env0 env1 ->
  mMatrix (this env1) = Some identity_matrix
  ∧ mvMatrix (this env1) = Some identity_matrix
  ∧ exists pos, position (this env1) = Some pos ∧ numbers_eq pos [0; 0; 0]%Q.
Proof.
  intros H. apply constructed_from_post in H as (a1 & a2 & Hthis & _).
  rewrite Hthis. simpl. split; [done | split; [done | ] ].
  eexists. split; [reflexivity | ].
  unfold numbers_eq, vec3.create. cbn.
  repeat (constructor; [reflexivity | ]). constructor.
Qed.

Lemma construction_initial_transform_witness :
  mMatrix (this sample_skybox) = Some identity_matrix
  ∧ mvMatrix (this sample_skybox) = Some identity_matrix.
Proof.
  destruct (construction_initial_transform sample_env sample_skybox) as (H1 & H2 & _).
  - vm_compute. reflexivity.
  - by split.
Defined.

(** C8.  A [render] on an initialised instance returns when no platform
    call throws.  When it returns, the model matrix is the identity
    translated by the stored position - whatever it was before - and
    the call has added exactly one draw call to those of the context:
    an indexed draw of triangles over 36 unsigned-short indices from
    offset 0.  That draw comes after the reset: it ran with the index
    buffer of the instance bound, with the program of the instance in
    use and with the model-view matrix of the rebuilt model matrix
    already uploaded. *)
Theorem render_draws_once pMatrix vMatrix env :
  initialised (this env) ->
  (plan env = [] -> exists env', render pMatrix vMatrix env = (Normal tt, env'))
  ∧ forall env',
      render pMatrix vMatrix env = (Normal tt, env') ->
      exists pos ib,
        position (this env) = Some pos
        ∧ mMatrix (this env') = Some (mat4.translated identity_matrix pos)
        ∧ draws (gl env')
          = draws (gl env) ++ [DrawElements TRIANGLES 36 UNSIGNED_SHORT 0 false]
        ∧ 36 = Z.of_nat (length indices)
        ∧ iBuffer (this env) = Some ib
        ∧ element_array_buffer (gl env') = Some (buf_id ib)
        ∧ exists sh dx,
            shader (this env) = Some sh
            ∧ draw_contexts (gl env') = draw_contexts (gl env) ++ [dx]
            ∧ dx_element_array_buffer dx = Some (buf_id ib)
            ∧ dx_program dx = Some (prog_id sh)
            ∧ dx_uniforms dx !! (prog_id sh, "uMVMatrix")
              = Some (UniformMatrix4
                        (mat4.product vMatrix (mat4.translated identity_matrix pos)))
            ∧ dx_texture dx = texture (this env).
Proof.
  intros Hinit. split; [by apply render_total | ].
  intros env' Hr.
  pose proof (wp_elim _ _ _ _ _ _ (render_draw_spec pMatrix vMatrix env) Hr) as Hdx.
  apply render_returns in Hr as [(sh & vb & tb & ib & m0 & mv0 & pos & Hthis & Hp) _].
  cbv zeta in Hp. destruct Hp as (Hthis' & _ & Hd & Hcur & Hu & Hact & Hbt & Hib).
  destruct Hinit as ((sh' & Hsh & _ & HMV & _)&_&_&_&(h & Hi)&_).
  rewrite Hthis in Hi, Hsh. simpl in Hi, Hsh. simplify_eq.
  exists pos, (MkBuffer h (Some 1) (Some 36)).
  rewrite Hthis'. rewrite Hthis at 1 2 3. cbn [position mMatrix iBuffer set_mMatrix set_mvMatrix].
  split; [reflexivity | split; [reflexivity | split; [exact Hd | split; [reflexivity | ] ] ] ].
  split; [reflexivity | split; [exact Hib | ] ].
  exists sh', (current_draw_context (gl env')).
  split; [by rewrite Hthis | ]. split; [exact Hdx | ].
  unfold current_draw_context, bound_texture.
  cbn [dx_element_array_buffer dx_program dx_uniforms dx_texture].
  split; [exact Hib | split; [exact Hcur | ] ].
  split; [ | by rewrite Hact, Hbt ].
  rewrite Hu, HMV. unfold store_uniform at 1.
  rewrite bool_decide_eq_true_2 by reflexivity. apply lookup_insert_eq.
Qed.

Lemma render_draws_once_witness :
  draws (gl (snd (render identity_matrix sample_view sample_skybox)))
  = [DrawElements TRIANGLES 36 UNSIGNED_SHORT 0 false].
Proof.
  destruct (render_draws_once identity_matrix sample_view sample_skybox) as [_ H].
  - unfold initialised, slots_resolved. vm_compute. repeat split; eauto.
  - destruct (H (snd (render identity_matrix sample_view sample_skybox)))
      as (pos & ib & _ & _ & Hd & _).
    + vm_compute. reflexivity.
    + exact Hd.
Defined.

(** C9.  No operation of the component writes the position: [render],
    [initShader], [initTexture] and the load callback leave it as they
    found it, whether they return or throw.  So after the constructor
    has completed and through every sequence of frames and image loads
    the position is the zero vector of the constructor, and the model
    matrix that a returning [render] computes is the identity. *)
Theorem position_never_written env0 env1 evs :
  constructed_from env0 env1 ->
  (forall ev env, position (this (snd (deliver ev env))) = position (this env))
  ∧ (forall pic env, position (this (snd (onload pic env))) = position (this env))
  ∧ (forall env, position (this (snd (initShader env))) = position (this env))
  ∧ (forall env, position (this (snd (initTexture env))) = position (this env))
  ∧ position (this (run evs env1)) = Some [0.0; 0.0; 0.0]%Q
  ∧ forall pMatrix vMatrix env',
      render pMatrix vMatrix (run evs env1) = (Normal tt, env') ->
      exists m, mMatrix (this env') = Some m ∧ numbers_eq m identity_matrix.
Proof.
  intros H. apply constructed_from_post in H as (a1 & a2 & Hthis & _).
  assert (Hpos : position (this (run evs env1)) = Some [0.0; 0.0; 0.0]%Q).
  { destruct (run_same_instance evs env1) as (_&_&_&_&_&Hpos&_).
    rewrite Hpos, Hthis. reflexivity. }
  split; [ | split; [ | split; [ | split; [ | split ] ] ] ].
  - intros ev env. by destruct (deliver_same_instance ev env) as (_&_&_&_&_&Hp&_).
  - intros pic env. destruct (onload_keeps pic env) as (Ht&_). by rewrite Ht.
  - apply initShader_keeps_position.
  - apply initTexture_keeps_position.
  - exact Hpos.
  - intros p v env' Hr.
    apply render_returns in Hr as [(sh & vb & tb & ib & m0 & mv0 & pos & Hthis0 & Hp) _].
    cbv zeta in Hp. destruct Hp as (Hthis' & _).
    rewrite Hthis0 in Hpos. simpl in Hpos. simplify_eq.
    eexists. rewrite Hthis', Hthis0. split; [reflexivity | ].
    unfold numbers_eq, mat4.translated, identity_matrix. cbn.
    repeat (constructor; [reflexivity | ]). constructor.
Qed.

Lemma position_never_written_witness :
  position (this (run [Frame identity_matrix sample_view; ImageLoaded sample_picture;
                       Frame identity_matrix identity_matrix] sample_skybox))
  = Some [0.0; 0.0; 0.0]%Q.
Proof.
  apply (position_never_written sample_env sample_skybox
           [Frame identity_matrix sample_view; ImageLoaded sample_picture;
            Frame identity_matrix identity_matrix]).
  vm_compute. reflexivity.
Defined.

(** C10.  When the load callback returns, no texture is bound to
    [TEXTURE_2D] on the active unit and the vertical-flip unpack flag
    is set; no later frame or image load of the component clears the
    flag, so an upload that follows is flipped.  A [render] that
    returns leaves the texture of the instance bound instead. *)
Theorem onload_leaves_texture_unbound pic env env' :
  onload pic env = (Normal tt, env') ->
  bound_texture (gl env') = None
  ∧ unpack_flip_y (gl env') = true
  ∧ (forall evs, unpack_flip_y (gl (run evs env')) = true)
  ∧ (forall pMatrix vMatrix env2 env3,
       render pMatrix vMatrix env2 = (Normal tt, env3) ->
       bound_texture (gl env3) = texture (this env2)
       ∧ (initialised (this env2) -> is_Some (bound_texture (gl env3)))).
Proof.
  intros H. apply onload_returns in H as [(Hflip & Hb & _) _].
  split; [done | split; [done | split ] ].
  - intros evs. by apply run_flip_y.
  - intros p v env2 env3 Hr.
    apply render_returns in Hr as [(sh & vb & tb & ib & m0 & mv0 & pos & _ & Hp) _].
    cbv zeta in Hp. destruct Hp as (_ & _ & _ & _ & _ & Hact & Hbt & _).
    unfold bound_texture. rewrite Hact, Hbt.
    split; [done | ]. by intros (_ & Ht & _).
Qed.

Lemma onload_leaves_texture_unbound_witness :
  bound_texture (gl (snd (onload sample_picture sample_skybox))) = None
  ∧ unpack_flip_y (gl sample_skybox) = false
  ∧ unpack_flip_y (gl (snd (onload sample_picture sample_skybox))) = true.
Proof.
  destruct (onload_leaves_texture_unbound sample_picture sample_skybox
              (snd (onload sample_picture sample_skybox))) as (H1 & H2 & _).
  - vm_compute. reflexivity.
  - split; [exact H1 | split; [reflexivity | exact H2] ].
Defined.

(** ** Further properties of the operations *)

(** The plan, step by step: what was left of it when a call threw. *)
Lemma wp_platform_plan {A} (call : GLState -> A * GLState) Q E env :
  (forall pl, (plan env = [] ∧ pl = []) ∨ plan env = None :: pl ->
     Q (fst (call (gl env))) (set_gl (snd (call (gl env))) (set_plan pl env))) ->
  (forall pl err, plan env = Some err :: pl -> E err (set_plan pl env)) ->
  wp (platform call) Q E env.
Proof.
  intros HQ HE. unfold wp, platform.
  destruct env as [o s c i pl]; simpl in *.
  destruct pl as [|[err|] rest]; simpl.
  - specialize (HQ [] (or_introl (conj eq_refl eq_refl))). by destruct (call s).
  - by apply (HE rest err).
  - specialize (HQ rest (or_intror eq_refl)). by destruct (call s).
Qed.

Ltac wp_step_plan :=
  lazymatch goal with
  | |- wp (_ ≫= _) _ _ _ => apply wp_bind
  | |- wp (mret _) _ _ _ => apply wp_ret
  | |- wp get_this _ _ _ => apply wp_get_this
  | |- wp (modify_this _) _ _ _ => apply wp_modify_this
  | |- wp (defined _ _) _ _ _ =>
      apply wp_defined; [intros ? ?; simplify_eq | intros ? ?; try discriminate]
  | |- wp (mat4.identity _) _ _ _ => unfold mat4.identity
  | |- wp (mat4.translate _ _) _ _ _ => unfold mat4.translate
  | |- wp (mat4.multiply _ _ _) _ _ _ => unfold mat4.multiply
  | |- wp _ _ _ _ =>
      apply wp_platform_plan;
      [ let pl := fresh "pl" in let Hpl := fresh "Hpl" in
        intros pl Hpl; wp_simpl;
        destruct Hpl as [[Hpl ->] | Hpl]; simplify_eq
      | let pl := fresh "pl" in let Hthrow := fresh "Hthrow" in
        intros pl ? Hthrow; wp_simpl; simplify_eq ]
  end; wp_simpl.

Lemma render_footprint_spec pMatrix vMatrix env :
  wp (render pMatrix vMatrix)
    (fun _ env' => render_footprint env env' ∧ render_bindings env env')
    (fun _ env' => render_footprint env env')
    env.
Proof.
  destruct env as [[sh t vb tb ib m mv pos] [] c i pl]. unfold render.
  repeat wp_step.
  all: unfold render_footprint, render_bindings; wp_simpl.
  all: try (split; [ | do 3 eexists; repeat split; reflexivity ]).
  all: repeat split; try done.
  all: try (intros cap Hcap; by destruct (decide (cap = DEPTH_TEST))).
  all: intros u Hu; unfold TEXTURE0 in *;
    destruct t; [by rewrite lookup_insert_ne | by rewrite lookup_delete_ne].
Qed.

Lemma render_throws_spec pMatrix vMatrix env :
  initialised (this env) ->
  wp (render pMatrix vMatrix) (fun _ _ => True) (fun err env' => render_throws env err env') env.
Proof.
  intros ((sh & Hsh & _) & [t Ht] & [hv Hvb] & [ht Htb] & [hi Hib] & [m Hm] & [mv Hmv] & [pos Hpos]).
  destruct env as [[] [] c i pl]. simpl in *. subst.
  unfold render.
  repeat wp_step_plan.
  all: try done.
  all: unfold render_throws; wp_simpl.
  all: repeat split; try done; try (intros; simplify_eq; done).
  all: try (intros; simplify_eq; split; [reflexivity | ]).
  all: intros; simplify_eq; simpl; repeat (first [left; reflexivity | right]).
Qed.

Lemma update_bound_texture_other f bound objs h :
  bound <> Some h -> update_bound_texture f bound objs !! h = objs !! h.
Proof.
  intros Hne. unfold update_bound_texture.
  destruct bound as [b|]; [ | done ].
  destruct (objs !! b) as [[]|]; try done.
  apply lookup_insert_ne. congruence.
Qed.

Lemma onload_footprint_spec pic env :
  wp (onload pic) (fun _ env' => onload_footprint env env')
    (fun _ env' => onload_footprint env env') env.
Proof.
  destruct env as [[sh t vb tb ib m mv pos] [] c i pl]. unfold onload.
  repeat wp_step.
  all: unfold onload_footprint; wp_simpl.
  all: repeat split; try done.
  all: try (left; reflexivity); try (right; reflexivity).
  all: try (intros u Hu; rewrite ?lookup_delete_ne by done;
            destruct t; [by rewrite lookup_insert_ne | by rewrite lookup_delete_ne]).
  all: intros h Hh; destruct t as [t|];
    rewrite ?lookup_insert_eq, ?lookup_delete_eq;
    rewrite ?update_bound_texture_other by done; done.
Qed.

Lemma onload_footprint_keeps pic env : onload_footprint env (snd (onload pic env)).
Proof. apply (wp_snd (onload pic) (onload_footprint env)), onload_footprint_spec. Qed.

Lemma render_footprint_keeps pMatrix vMatrix env :
  render_footprint env (snd (render pMatrix vMatrix env)).
Proof.
  apply (wp_snd (render pMatrix vMatrix) (render_footprint env)).
  eapply wp_mono; [apply render_footprint_spec | |]; simpl; tauto.
Qed.

Lemma GLSkybox_body_footprint_spec env0 :
  wp GLSkybox_body
    (fun _ env1 => construction_state env0 env1 ∧ construction_footprint env0 env1)
    (fun _ env1 => construction_footprint env0 env1
                   ∧ mMatrix (this env1) = None ∧ position (this env1) = None)
    (set_this empty_skybox env0).
Proof.
  destruct env0 as [o [] c i pl]. unfold GLSkybox_body, empty_skybox.
  repeat (wp_step; map_simpl).
  all: unfold construction_state, construction_footprint; wp_simpl; cbn [Nat.add].
  all: unfold update_bound_texture; map_simpl; cbv iota; map_simpl.
  all: repeat split; try done; try lia.
  all: try (intros u Hu; by rewrite lookup_insert_ne).
  all: try (intros h Hh; map_simpl; done).
  all: intros a Ha Hge; rewrite Ha; cbv [default from_option id];
    assert (Hle : (0 <=? a) = true) by (apply Z.leb_le; lia);
    rewrite Hle; repeat case_match; simpl; auto.
Qed.

Lemma run_frames_image l env : image (run (frames l) env) = image env.
Proof.
  revert env. induction l as [|[p v] l IH]; intros env; simpl; [done | ].
  rewrite IH.
  by destruct (render_keeps p v env) as (_&_&_&_&_&_&_&_&_&_&_&Himg).
Qed.

Lemma render_undefined_matrix pMatrix vMatrix env :
  mMatrix (this env) = None ->
  render pMatrix vMatrix env = (Throw "TypeError: dest is undefined", env).
Proof.
  intros H. unfold render, mbind, JS_bind, get_this, mat4.identity, mbind, JS_bind.
  by rewrite H.
Qed.

(** ** Further properties *)

(** X1.  Post-load swap.  After a completed construction and any number
    of frames, once the load callback has run and returned, the texture
    of the instance - the same texture object - holds the loaded
    picture, uploaded flipped, with linear magnification and
    minification filters, in place of the placeholder; it keeps it over
    the frames that follow, and a [render] that returns leaves it
    bound. *)
Theorem loaded_picture_replaces_placeholder env0 env1 l1 pic env2 :
  constructed_from env0 env1 ->
  deliver (ImageLoaded pic) (run (frames l1) env1) = (Normal tt, env2) ->
  let loaded :=
    TextureObject (TextureState (Some (FromPicture RGBA true pic)) LINEAR LINEAR) in
  exists t,
    texture (this env1) = Some t
    ∧ forall l2,
        texture (this (run (frames l2) env2)) = Some t
        ∧ objects (gl (run (frames l2) env2)) !! t = Some loaded
        ∧ forall pMatrix vMatrix env3,
            render pMatrix vMatrix (run (frames l2) env2) = (Normal tt, env3) ->
            bound_texture (gl env3) = Some t ∧ objects (gl env3) !! t = Some loaded.
Proof.
  intros Hc Hd loaded.
  apply constructed_from_post in Hc as (a1 & a2 & Hthis & Hobj & _ & _ & _ & Himg & _).
  set (env := run (frames l1) env1) in *.
  assert (Ht : texture (this env) = Some (3 + next_handle (gl env0))%nat).
  { destruct (run_same_instance (frames l1) env1) as (_ & Ht & _).
    fold env in Ht. by rewrite Ht, Hthis. }
  assert (Ho : objects (gl env) !! (3 + next_handle (gl env0))%nat
               = Some (TextureObject placeholder_texture)).
  { unfold env. by rewrite run_frames_objects. }
  assert (Hi : image env = Some (MkImage true (Some skybox_image))).
  { unfold env. by rewrite run_frames_image. }
  unfold deliver, image_loaded in Hd. rewrite Hi in Hd.
  apply onload_returns in Hd as [(_ & _ & Hload) (Hsame & _)].
  specialize (Hload _ _ Ht Ho).
  exists (3 + next_handle (gl env0))%nat. split; [by rewrite Hthis | ].
  intros l2.
  assert (Ht2 : texture (this (run (frames l2) env2)) = Some (3 + next_handle (gl env0))%nat).
  { destruct (run_same_instance (frames l2) env2) as (_ & Ht2 & _).
    by rewrite Ht2, Hsame. }
  assert (Ho2 : objects (gl (run (frames l2) env2)) !! (3 + next_handle (gl env0))%nat
                = Some loaded).
  { by rewrite run_frames_objects. }
  split; [done | split; [done | ] ].
  intros p v env3 Hr.
  apply render_returns in Hr as [(sh & vb & tb & ib & m0 & mv0 & pos & _ & Hp) Hf].
  cbv zeta in Hp. destruct Hp as (_ & _ & _ & _ & _ & Hact & Hb & _).
  destruct Hf as (_&_&_&_&_&_&_&_&Hobj3&_).
  unfold bound_texture. by rewrite Hact, Hb, Hobj3.
Qed.

Lemma loaded_picture_replaces_placeholder_witness :
  exists t,
    texture (this sample_skybox) = Some t
    ∧ objects (gl sample_loaded) !! t
      = Some (TextureObject
                (TextureState (Some (FromPicture RGBA true sample_picture)) LINEAR LINEAR)).
Proof.
  destruct (loaded_picture_replaces_placeholder sample_env sample_skybox [] sample_picture
              sample_loaded) as (t & Ht & H).
  - vm_compute. reflexivity.
  - vm_compute. reflexivity.
  - exists t. split; [exact Ht | ]. exact (proj1 (proj2 (H []))).
Defined.

(** X2.  The load event writes three things and nothing else, whether
    the callback returns or throws and whether or not a load was
    pending: the object of the instance's texture, the texture bound on
    the unit that is active when the callback runs, and the
    vertical-flip unpack flag, which it sets and never clears.  The
    instance, the capabilities, the program, the buffer bindings, the
    active unit, the uniforms, the attribute state, the draw log, the
    console, every other object and the texture bound on every other
    unit stay as they were. *)
Theorem image_load_writes_one_texture pic env :
  onload_footprint env (snd (deliver (ImageLoaded pic) env)).
Proof.
  unfold deliver, image_loaded.
  destruct (image env) as [[[] [src|]]|];
    try (repeat split; try reflexivity; left; reflexivity).
  apply onload_footprint_keeps.
Qed.

(** X3.  When the constructor has completed, the texture-coordinate
    buffer holds [coords]; each of the three buffers is marked with an
    item size and an item count whose product is the length of the
    array uploaded to it; the vertex and texture-coordinate buffers
    count the same 24 items; and the program, the texture and the three
    buffers are five different objects. *)
Theorem buffers_match_their_item_counts env0 env1 :
  constructed_from env0 env1 ->
  exists sh t hv ht hi,
    shader (this env1) = Some sh
    ∧ texture (this env1) = Some t
    ∧ vBuffer (this env1) = Some (MkBuffer hv (Some 3) (Some 24))
    ∧ tBuffer (this env1) = Some (MkBuffer ht (Some 2) (Some 24))
    ∧ iBuffer (this env1) = Some (MkBuffer hi (Some 1) (Some 36))
    ∧ objects (gl env1) !! ht
      = Some (BufferObject (Some (Float32Array coords)) (Some STATIC_DRAW))
    ∧ Z.of_nat (length vertices) = 3 * 24
    ∧ Z.of_nat (length coords) = 2 * 24
    ∧ Z.of_nat (length indices) = 1 * 36
    ∧ NoDup [prog_id sh; t; hv; ht; hi].
Proof.
  intros H. apply constructed_from_post in H as (a1 & a2 & Hthis & _ & _ & Hc & _).
  rewrite Hthis. cbn [shader texture vBuffer tBuffer iBuffer].
  do 5 eexists. repeat split; try reflexivity; [exact Hc | ].
  cbn [prog_id]. repeat (constructor; [rewrite ?elem_of_cons, elem_of_nil; lia | ]).
  constructor.
Qed.

Lemma buffers_match_their_item_counts_witness :
  exists ht,
    tBuffer (this sample_skybox) = Some (MkBuffer ht (Some 2) (Some 24))
    ∧ objects (gl sample_skybox) !! ht
      = Some (BufferObject (Some (Float32Array coords)) (Some STATIC_DRAW)).
Proof.
  destruct (buffers_match_their_item_counts sample_env sample_skybox)
    as (sh & t & hv & ht & hi & _ & _ & _ & Ht & _ & Ho & _).
  - vm_compute. reflexivity.
  - exists ht. by split.
Defined.

Lemma constructed_from_state env0 env1 :
  constructed_from env0 env1 -> construction_state env0 env1.
Proof.
  intros H. exact (proj1 (wp_elim _ _ _ _ _ _ (GLSkybox_body_footprint_spec env0) H)).
Qed.

(** X4.  What [initShader] has done when the constructor has completed:
    the program of the instance is a program object to which the
    fragment shader loaded from ./shaders/GLSkyboxF.c and the vertex
    shader loaded from ./shaders/GLSkyboxV.c have been attached, in
    that order; the two attribute slots kept on the instance are what
    [getAttribLocation] returned for [aVertexPosition] and
    [aVertexCoords], and each of them that is not negative is enabled;
    a uniform slot kept on the instance, when it is not null, is the
    location of [uPMatrix], [uMVMatrix] or [uSampler] in that same
    program.  Whether the link succeeded is the platform's affair and
    is not stated. *)
Theorem shader_program_after_construction env0 env1 :
  constructed_from env0 env1 ->
  exists sh fragment vertex linked,
    shader (this env1) = Some sh
    ∧ objects (gl env1) !! prog_id sh = Some (ProgramObject [fragment; vertex] linked)
    ∧ objects (gl env1) !! fragment
      = Some (ShaderObject FRAGMENT_SHADER "./shaders/GLSkyboxF.c")
    ∧ objects (gl env1) !! vertex
      = Some (ShaderObject VERTEX_SHADER "./shaders/GLSkyboxV.c")
    ∧ fragment <> vertex
    ∧ vertexPositionAttribute sh
      = Some (default (-1) (locations (gl env0) !! "aVertexPosition"))
    ∧ vertexCoordsAttribute sh
      = Some (default (-1) (locations (gl env0) !! "aVertexCoords"))
    ∧ (forall a, vertexPositionAttribute sh = Some a -> 0 <= a ->
         In a (enabled_attribs (gl env1)))
    ∧ (forall a, vertexCoordsAttribute sh = Some a -> 0 <= a ->
         In a (enabled_attribs (gl env1)))
    ∧ (forall l, pMatrixUniform sh = Some l -> l = UniformLocation (prog_id sh) "uPMatrix")
    ∧ (forall l, mvMatrixUniform sh = Some l -> l = UniformLocation (prog_id sh) "uMVMatrix")
    ∧ (forall l, samplerUniform sh = Some l -> l = UniformLocation (prog_id sh) "uSampler").
Proof.
  intros H. apply constructed_from_state in H as
    (Hsh & Hp & Hf & Hv & _ & _ & _ & _ & _ & He1 & He2).
  rewrite Hsh. cbn [shader].
  do 4 eexists. split; [reflexivity | ].
  cbn [prog_id vertexPositionAttribute vertexCoordsAttribute
       pMatrixUniform mvMatrixUniform samplerUniform].
  split; [exact Hp | split; [exact Hf | split; [exact Hv | ] ] ].
  split; [lia | ].
  split; [reflexivity | split; [reflexivity | ] ].
  split; [ | split; [ | repeat split; congruence ] ]; intros a [= Ha] Hge.
  - destruct (locations (gl env0) !! "aVertexPosition") as [a'|] eqn:Hl;
      cbv [default from_option id] in Ha; [subst a'; by apply He1 | lia].
  - destruct (locations (gl env0) !! "aVertexCoords") as [a'|] eqn:Hl;
      cbv [default from_option id] in Ha; [subst a'; by apply He2 | lia].
Qed.

Lemma shader_program_after_construction_witness :
  exists sh linked,
    shader (this sample_skybox) = Some sh
    ∧ objects (gl sample_skybox) !! prog_id sh = Some (ProgramObject [2%nat; 3%nat] linked)
    ∧ vertexCoordsAttribute sh = Some 1.
Proof.
  destruct (shader_program_after_construction sample_env sample_skybox)
    as (sh & f & v & linked & Hsh & Hp & Hf & Hv & _ & _ & Hc & _).
  - vm_compute. reflexivity.
  - exists sh, linked. split; [exact Hsh | ]. split; [ | exact Hc ].
    assert (Hs : Some sh = shader (this sample_skybox)) by (by rewrite Hsh).
    vm_compute in Hs. injection Hs as ->.
    cbn [prog_id] in *. rewrite Hp.
    assert (Hf' : f = 2%nat).
    { destruct (decide (f = 2%nat)) as [|Hne]; [done | ].
      exfalso. revert Hp. vm_compute. intros [= <- <-]. by apply Hne. }
    assert (Hv' : v = 3%nat).
    { revert Hp. vm_compute. by intros [= _ <-]. }
    by rewrite Hf', Hv'.
Defined.

(** X5.  When the constructor has completed it has left its own objects
    bound: the texture-coordinate buffer - the last array buffer it
    filled, not the vertex buffer - on [ARRAY_BUFFER], the index buffer
    on [ELEMENT_ARRAY_BUFFER], the skybox texture on [TEXTURE_2D] of
    the active unit; and it has taken exactly seven handles. *)
Theorem bindings_after_construction env0 env1 :
  constructed_from env0 env1 ->
  exists t vb tb ib,
    texture (this env1) = Some t ∧ vBuffer (this env1) = Some vb
    ∧ tBuffer (this env1) = Some tb ∧ iBuffer (this env1) = Some ib
    ∧ array_buffer (gl env1) = Some (buf_id tb)
    ∧ buf_id tb <> buf_id vb
    ∧ element_array_buffer (gl env1) = Some (buf_id ib)
    ∧ bound_texture (gl env1) = Some t
    ∧ next_handle (gl env1) = (7 + next_handle (gl env0))%nat.
Proof.
  intros H. pose proof (constructed_from_state _ _ H) as
    (_ & _ & _ & _ & _ & Ha & He & Hb & Hn & _).
  apply constructed_from_post in H as (a1 & a2 & Hthis & _).
  rewrite Hthis. cbn [texture vBuffer tBuffer iBuffer].
  do 4 eexists. repeat split; try reflexivity; cbn [buf_id]; try done; lia.
Qed.

Lemma bindings_after_construction_witness :
  array_buffer (gl sample_skybox) = Some 6%nat
  ∧ next_handle (gl sample_skybox) = 8%nat.
Proof.
  destruct (bindings_after_construction sample_env sample_skybox)
    as (t & vb & tb & ib & _ & _ & Htb & _ & Ha & _ & _ & _ & Hn).
  - vm_compute. reflexivity.
  - split; [ | exact Hn ].
    rewrite Ha. assert (Hs : Some tb = tBuffer (this sample_skybox)) by (by rewrite Htb).
    vm_compute in Hs. by injection Hs as ->.
Defined.

(** X6.  Whether it completes or fails, and wherever it fails, the
    constructor draws nothing, uploads no uniform, sets no attribute
    pointer and changes no capability, nor the unpack flag, nor the
    active texture unit; it changes the texture binding of the active
    unit only; it takes at most seven handles, and the objects that
    were there before it ran are as they were. *)
Theorem construction_leaves_the_rest_alone env :
  construction_footprint env (snd (new_GLSkybox env)).
Proof.
  assert (Hnew : new_GLSkybox env = GLSkybox (set_this empty_skybox env)) by reflexivity.
  rewrite Hnew. unfold GLSkybox, try_catch.
  pose proof (GLSkybox_body_footprint_spec env) as Hspec. unfold wp in Hspec.
  destruct (GLSkybox_body (set_this empty_skybox env)) as [[[]|err] env1].
  - exact (proj2 Hspec).
  - exact (proj1 Hspec).
Qed.

Lemma uniform_slots_distinct (n : handle) (a b : string) :
  a <> b -> (n, a) <> (n, b).
Proof. congruence. Qed.

(** X7.  A [render] that returns has uploaded the projection matrix as
    the caller passed it to [uPMatrix] and 0 to [uSampler], written no
    uniform but these two and [uMVMatrix], made the program of the
    instance current and unit 0 the active texture unit, and pointed
    the position attribute at the vertex buffer and the coordinate
    attribute at the texture-coordinate buffer, each with the item size
    of its buffer, as unnormalised floats with stride 0 and offset 0;
    [ARRAY_BUFFER] is left on the texture-coordinate buffer. *)
Theorem render_uploads pMatrix vMatrix env env' sh vb tb a1 a2 :
  shader (this env) = Some sh ->
  slots_resolved sh ->
  vertexPositionAttribute sh = Some a1 ->
  vertexCoordsAttribute sh = Some a2 ->
  0 <= a1 -> 0 <= a2 -> a1 <> a2 ->
  vBuffer (this env) = Some vb ->
  tBuffer (this env) = Some tb ->
  render pMatrix vMatrix env = (Normal tt, env') ->
  uniforms (gl env') !! (prog_id sh, "uPMatrix") = Some (UniformMatrix4 pMatrix)
  ∧ uniforms (gl env') !! (prog_id sh, "uSampler") = Some (UniformInt 0)
  ∧ (forall k, k ∉ [(prog_id sh, "uPMatrix"); (prog_id sh, "uMVMatrix"); (prog_id sh, "uSampler")] ->
       uniforms (gl env') !! k = uniforms (gl env) !! k)
  ∧ current_program (gl env') = Some (prog_id sh)
  ∧ active_texture (gl env') = TEXTURE0
  ∧ attrib_pointers (gl env') !! a1
    = Some (AttribPointer (Some (buf_id vb)) (default 0 (itemSize vb)) FLOAT false 0 0)
  ∧ attrib_pointers (gl env') !! a2
    = Some (AttribPointer (Some (buf_id tb)) (default 0 (itemSize tb)) FLOAT false 0 0)
  ∧ (forall a, a <> a1 -> a <> a2 ->
       attrib_pointers (gl env') !! a = attrib_pointers (gl env) !! a)
  ∧ array_buffer (gl env') = Some (buf_id tb).
Proof.
  intros Hsh (HP & HMV & HS) Ha1 Ha2 Hge1 Hge2 Hne Hvb Htb Hr.
  pose proof (wp_elim _ _ _ _ _ _ (render_footprint_spec pMatrix vMatrix env) Hr)
    as [_ (sh' & vb' & tb' & Hsh' & Hvb' & Htb' & Harr & Hptr)].
  apply render_returns in Hr as [(sh'' & vb'' & tb'' & ib & m0 & mv0 & pos & Hthis & Hp) _].
  cbv zeta in Hp, Hptr. destruct Hp as (_ & _ & _ & Hcur & Hu & Hact & _).
  simplify_eq. rewrite Ha1, Ha2 in Hptr. cbv [default from_option id] in Hptr.
  rewrite (proj2 (Z.leb_le 0 a1) Hge1), (proj2 (Z.leb_le 0 a2) Hge2) in Hptr.
  rewrite Hthis in Hsh. cbn [shader] in Hsh. injection Hsh as ->.
  rewrite Hu, HP, HMV, HS. unfold store_uniform. rewrite !bool_decide_eq_true_2 by done.
  cbn [ul_program ul_name].
  repeat split.
  - rewrite lookup_insert_ne by (apply uniform_slots_distinct; discriminate).
    apply lookup_insert_eq.
  - rewrite !lookup_insert_ne by (apply uniform_slots_distinct; discriminate).
    apply lookup_insert_eq.
  - intros k Hk. rewrite !not_elem_of_cons in Hk. destruct Hk as (?&?&?&_).
    rewrite !lookup_insert_ne by congruence. reflexivity.
  - exact Hcur.
  - exact Hact.
  - rewrite Hptr, lookup_insert_ne by congruence. apply lookup_insert_eq.
  - rewrite Hptr. apply lookup_insert_eq.
  - intros a ? ?. rewrite Hptr. rewrite !lookup_insert_ne by congruence. reflexivity.
  - exact Harr.
Qed.

Lemma render_uploads_witness :
  uniforms (gl (snd (render sample_view identity_matrix sample_skybox))) !! (1%nat, "uPMatrix")
  = Some (UniformMatrix4 sample_view)
  ∧ attrib_pointers (gl (snd (render sample_view identity_matrix sample_skybox))) !! 1
    = Some (AttribPointer (Some 6%nat) 2 FLOAT false 0 0).
Proof.
  destruct (render_uploads sample_view identity_matrix sample_skybox
              (snd (render sample_view identity_matrix sample_skybox))
              (MkProgram 1%nat (Some 0) (Some 1)
                 (Some (UniformLocation 1%nat "uPMatrix"))
                 (Some (UniformLocation 1%nat "uMVMatrix"))
                 (Some (UniformLocation 1%nat "uSampler")))
              (MkBuffer 5%nat (Some 3) (Some 24)) (MkBuffer 6%nat (Some 2) (Some 24)) 0 1)
    as (Hp & _ & _ & _ & _ & _ & Hc & _).
  - reflexivity.
  - repeat split.
  - reflexivity.
  - reflexivity.
  - lia.
  - lia.
  - lia.
  - reflexivity.
  - reflexivity.
  - vm_compute. reflexivity.
  - split; [exact Hp | exact Hc].
Defined.

(** X8.  Transforms do not accumulate over frames: the matrices of the
    instance after a frame are those of that frame alone.  A [render]
    that follows another leaves the instance exactly as the same
    [render] would have left it without the frame before. *)
Theorem frames_do_not_accumulate p0 v0 pMatrix vMatrix env env1 env2 env3 :
  render p0 v0 env = (Normal tt, env1) ->
  render pMatrix vMatrix env1 = (Normal tt, env2) ->
  render pMatrix vMatrix env = (Normal tt, env3) ->
  this env2 = this env3
  ∧ forall sh, shader (this env) = Some sh -> slots_resolved sh ->
      uniforms (gl env2) !! (prog_id sh, "uMVMatrix")
      = uniforms (gl env3) !! (prog_id sh, "uMVMatrix").
Proof.
  intros H1 H2 H3.
  apply render_returns in H1 as [(sh1 & vb1 & tb1 & ib1 & m1 & mv1 & pos1 & Ht1 & Hp1) _].
  apply render_returns in H2 as [(sh2 & vb2 & tb2 & ib2 & m2 & mv2 & pos2 & Ht2 & Hp2) _].
  apply render_returns in H3 as [(sh3 & vb3 & tb3 & ib3 & m3 & mv3 & pos3 & Ht3 & Hp3) _].
  cbv zeta in Hp1, Hp2, Hp3.
  destruct Hp1 as (Hn1 & _). destruct Hp2 as (Hn2 & _ & _ & _ & Hu2 & _).
  destruct Hp3 as (Hn3 & _ & _ & _ & Hu3 & _).
  rewrite Ht1 in Hn1. cbn in Hn1. rewrite Hn1 in Ht2. cbn in Ht2.
  injection Ht2 as <- <- <- <- <- <- <-.
  rewrite Ht1 in Ht3. injection Ht3 as <- <- <- <- <- <- <-.
  split.
  - rewrite Hn2, Hn3, Hn1, Ht1. reflexivity.
  - intros sh Hsh (_ & HMV & _). rewrite Ht1 in Hsh. cbn in Hsh. injection Hsh as <-.
    rewrite Hu2, Hu3, HMV. unfold store_uniform at 1 4.
    rewrite !bool_decide_eq_true_2 by reflexivity.
    rewrite !lookup_insert_eq. reflexivity.
Qed.

Lemma frames_do_not_accumulate_witness :
  this (snd (render identity_matrix identity_matrix
               (snd (render identity_matrix sample_view sample_positioned))))
  = this (snd (render identity_matrix identity_matrix sample_positioned)).
Proof.
  apply (frames_do_not_accumulate identity_matrix sample_view identity_matrix identity_matrix
           sample_positioned
           (snd (render identity_matrix sample_view sample_positioned))
           (snd (render identity_matrix identity_matrix
                   (snd (render identity_matrix sample_view sample_positioned))))
           (snd (render identity_matrix identity_matrix sample_positioned))).
  - vm_compute. reflexivity.
  - vm_compute. reflexivity.
  - vm_compute. reflexivity.
Defined.

(** X9.  [render] catches nothing and restores nothing.  On an
    initialised instance it raises no error of its own: an error it
    throws is the one a platform call threw.  If that call is the first,
    [gl.disable], the context is as it was; if it is a later one, depth
    testing is left disabled. *)
Theorem render_propagates_platform_errors pMatrix vMatrix env err env' :
  initialised (this env) ->
  render pMatrix vMatrix env = (Throw err, env') ->
  In (Some err) (plan env)
  ∧ (forall e rest, plan env = Some e :: rest -> err = e ∧ gl env' = gl env)
  ∧ (forall rest, plan env = None :: rest ->
       caps (gl env') DEPTH_TEST = false ∧ In (Some err) rest).
Proof.
  intros Hinit Hr.
  exact (wp_elim_throw _ _ _ _ _ _ (render_throws_spec pMatrix vMatrix env Hinit) Hr).
Qed.

Lemma render_propagates_platform_errors_witness :
  caps (gl sample_faulty) DEPTH_TEST = true
  ∧ fst (render identity_matrix sample_view sample_faulty) = Throw "context lost"
  ∧ caps (gl (snd (render identity_matrix sample_view sample_faulty))) DEPTH_TEST = false.
Proof.
  split; [reflexivity | split; [reflexivity | ] ].
  destruct (render_propagates_platform_errors identity_matrix sample_view
              sample_faulty "context lost"
              (snd (render identity_matrix sample_view sample_faulty)))
    as (_ & _ & H).
  - unfold initialised, slots_resolved. vm_compute. repeat split; eauto.
  - vm_compute. reflexivity.
  - apply (H [None; Some "context lost"%string]). reflexivity.
Defined.

(** X10.  A failed construction is silent, but every later frame fails:
    on the instance that a constructor whose [try] block threw leaves
    behind, the model matrix is [undefined] and [render] throws before
    its first call into the context, so it draws nothing and changes
    nothing, frame after frame. *)
Theorem render_after_failed_construction env err env1 :
  GLSkybox_body (set_this empty_skybox env) = (Throw err, env1) ->
  let failed := snd (new_GLSkybox env) in
  mMatrix (this failed) = None
  ∧ (forall pMatrix vMatrix, exists e, render pMatrix vMatrix failed = (Throw e, failed))
  ∧ forall l, run (frames l) failed = failed.
Proof.
  intros H failed.
  assert (Hm : mMatrix (this failed) = None).
  { pose proof (wp_elim_throw _ _ _ _ _ _ (GLSkybox_body_footprint_spec env) H) as (_ & Hm & _).
    unfold failed.
    assert (Hnew : new_GLSkybox env = GLSkybox (set_this empty_skybox env)) by reflexivity.
    rewrite Hnew. unfold GLSkybox, try_catch. rewrite H. exact Hm. }
  split; [exact Hm | split ].
  - intros p v. eexists. by apply render_undefined_matrix.
  - intros l. induction l as [|[p v] l IH]; [reflexivity | ].
    cbn [frames map run deliver fst snd]. rewrite render_undefined_matrix by exact Hm.
    exact IH.
Qed.

Lemma render_after_failed_construction_witness :
  console sample_failed = ["GLSkybox: shader compile error"%string]
  ∧ run (frames [(identity_matrix, sample_view); (identity_matrix, identity_matrix)])
      sample_failed = sample_failed.
Proof.
  split; [reflexivity | ].
  apply (render_after_failed_construction sample_failing "shader compile error"
           (snd (GLSkybox_body (set_this empty_skybox sample_failing)))).
  vm_compute. reflexivity.
Defined.

(** X11.  [render] is confined, whether it returns or throws: it writes
    no object of the context (no buffer, no texture), allocates no
    handle, leaves the unpack flag, the enabled attribute arrays, every
    capability but depth testing and the texture bound on every unit
    but unit 0 as they were, writes nothing on the console, and of the
    instance changes the two matrices only. *)
Theorem render_is_confined pMatrix vMatrix env :
  render_frame env (snd (render pMatrix vMatrix env))
  ∧ render_footprint env (snd (render pMatrix vMatrix env)).
Proof. split; [apply render_keeps | apply render_footprint_keeps]. Qed.

(** X12.  The mesh is a cube.  Every coordinate is 1 or -1; the four
    vertices labelled with a face are four different corners lying on
    one side of the cube, a different side for each face; every corner
    of the cube occurs three times among the 24 vertices, once for each
    side that meets in it.  The six indices of face number [k] are
    [4k, 4k+1, 4k+2, 4k, 4k+2, 4k+3]: two triangles that share the
    diagonal of the face.  The four texture coordinates of a face are
    the four different corners of its quadrant of the atlas. *)
Theorem mesh_is_a_cube :
  forallb is_unit vertices = true
  ∧ (forall f,
       length (face_vertices f) = 4%nat
       ∧ pairwise_distinct vertex_eqb (face_vertices f) = true
       ∧ forallb (fun v => Qeq_bool (coordinate (fst (face_plane f)) v) (snd (face_plane f)))
           (face_vertices f) = true)
  ∧ (forall f g, fst (face_plane f) = fst (face_plane g) ->
       (snd (face_plane f) == snd (face_plane g))%Q -> f = g)
  ∧ Forall (fun c => length (filter (fun v => vertex_eqb c v = true) all_vertices) = 3%nat)
      cube_corners
  ∧ (forall f,
       face_indices f
       = let k := 4 * Z.of_nat (face_index f) in [k; k + 1; k + 2; k; k + 2; k + 3])
  ∧ (forall f, exists cr,
       quadrant f = Some cr
       ∧ forallb (on_quadrant_corner cr) (face_coords f) = true
       ∧ pairwise_distinct uv_eqb (face_coords f) = true).
Proof.
  split; [reflexivity | ].
  split; [intros []; repeat split; reflexivity | ].
  split; [intros [] []; cbn; intros Ha Hs; try reflexivity; discriminate | ].
  split; [repeat (constructor; [vm_compute; reflexivity | ]); constructor | ].
  split; [intros []; reflexivity | ].
  intros []; eexists; (split; [reflexivity | split; reflexivity]).
Qed.

Lemma GLSkybox_body_image_spec env0 :
  image env0 = None ->
  let pending env1 :=
    forall src, image env1 = Some (MkImage true (Some src)) ->
      src = skybox_image
      ∧ exists t, texture (this env1) = Some t
          ∧ objects (gl env1) !! t = Some (TextureObject placeholder_texture) in
  wp GLSkybox_body (fun _ env1 => pending env1) (fun _ env1 => pending env1)
    (set_this empty_skybox env0).
Proof.
  intros Himg pending. subst pending.
  destruct env0 as [o [] c i pl]. simpl in Himg. subst i.
  unfold GLSkybox_body, empty_skybox.
  repeat (wp_step; map_simpl).
  all: wp_simpl; intros src Hsrc; try discriminate.
  all: injection Hsrc as <-; split; [reflexivity | ].
  all: eexists; split; [reflexivity | ].
  all: unfold update_bound_texture; map_simpl; cbv iota; map_simpl; reflexivity.
Qed.

Lemma render_keeps_empty_plan pMatrix vMatrix env :
  plan env = [] -> plan (snd (render pMatrix vMatrix env)) = [].
Proof.
  intros Hplan.
  apply (wp_snd (render pMatrix vMatrix) (fun env' => plan env' = [])).
  destruct env as [[sh t vb tb ib m mv pos] [] c i pl]. simpl in Hplan. subst pl.
  unfold render.
  repeat wp_step; done.
Qed.

(** X13.  The image load outlives the constructor.  Whether the
    constructor completes or fails, if it leaves a load pending, the
    load is that of ./images/skybox/skybox.png and the instance has its
    texture, holding the placeholder; when the callback then runs and
    returns, the picture is in that texture - also on an instance whose
    construction failed after [initTexture]. *)
Theorem image_load_outlives_construction env src :
  image env = None ->
  image (snd (new_GLSkybox env)) = Some (MkImage true (Some src)) ->
  src = skybox_image
  ∧ exists t,
      texture (this (snd (new_GLSkybox env))) = Some t
      ∧ objects (gl (snd (new_GLSkybox env))) !! t = Some (TextureObject placeholder_texture)
      ∧ forall pic env2,
          deliver (ImageLoaded pic) (snd (new_GLSkybox env)) = (Normal tt, env2) ->
          objects (gl env2) !! t
          = Some (TextureObject (TextureState (Some (FromPicture RGBA true pic)) LINEAR LINEAR)).
Proof.
  intros Himg.
  assert (Hnew : new_GLSkybox env = GLSkybox (set_this empty_skybox env)) by reflexivity.
  rewrite Hnew. unfold GLSkybox, try_catch.
  pose proof (GLSkybox_body_image_spec env Himg) as Hspec. cbv zeta in Hspec.
  unfold wp in Hspec.
  destruct (GLSkybox_body (set_this empty_skybox env)) as [[[]|err] env1];
    cbn [snd console_log set_console this gl image]; intros Hsrc;
    destruct (Hspec src Hsrc) as (-> & t & Ht & Ho);
    (split; [reflexivity | ]); exists t; (split; [exact Ht | split; [exact Ho | ] ]);
    intros pic env2 Hd; unfold deliver, image_loaded in Hd;
    cbn [image set_console snd console_log] in Hd; rewrite Hsrc in Hd;
    apply onload_returns in Hd as [(_ & _ & Hload) _]; exact (Hload t _ Ht Ho).
Qed.

Lemma image_load_outlives_construction_witness :
  exists t,
    shader (this sample_half_built) <> None
    ∧ vBuffer (this sample_half_built) = None
    ∧ texture (this sample_half_built) = Some t
    ∧ objects (gl (snd (deliver (ImageLoaded sample_picture) sample_half_built))) !! t
      = Some (TextureObject
                (TextureState (Some (FromPicture RGBA true sample_picture)) LINEAR LINEAR)).
Proof.
  destruct (image_load_outlives_construction sample_buffer_failure skybox_image)
    as (_ & t & Ht & _ & H).
  - reflexivity.
  - vm_compute. reflexivity.
  - exists t. split; [vm_compute; discriminate | ].
    split; [vm_compute; reflexivity | ]. split; [exact Ht | ].
    apply H. vm_compute. reflexivity.
Defined.

(** X14.  Once constructed, always renderable: after a completed
    construction and any sequence of frames and image loads - whether
    they returned or threw - the instance is initialised, and a
    [render] during which no platform call throws returns. *)
Theorem constructed_instance_stays_renderable env0 env1 evs pMatrix vMatrix :
  constructed_from env0 env1 ->
  initialised (this (run evs env1))
  ∧ (plan (run evs env1) = [] ->
     exists env', render pMatrix vMatrix (run evs env1) = (Normal tt, env')).
Proof.
  intros H. apply constructed_from_post, constructed_initialised in H.
  assert (Hinit : initialised (this (run evs env1))).
  { eapply same_instance_initialised; [apply run_same_instance | exact H]. }
  split; [exact Hinit | by apply render_total].
Qed.

Lemma constructed_instance_stays_renderable_witness :
  exists env',
    render identity_matrix sample_view
      (run [Frame identity_matrix identity_matrix; ImageLoaded sample_picture] sample_skybox)
    = (Normal tt, env').
Proof.
  apply (constructed_instance_stays_renderable sample_env sample_skybox
           [Frame identity_matrix identity_matrix; ImageLoaded sample_picture]).
  - vm_compute. reflexivity.
  - reflexivity.
Defined.

(** X15.  One draw call per frame.  On an initialised instance, in a
    host in which no platform call throws, a run of [n] frames adds
    exactly [n] draw calls to the log, each an indexed draw of 36
    triangle indices made with depth testing off, and nothing else. *)
Theorem frames_draw_once_each l env :
  initialised (this env) ->
  plan env = [] ->
  draws (gl (run (frames l) env))
  = draws (gl env)
    ++ replicate (length l) (DrawElements TRIANGLES 36 UNSIGNED_SHORT 0 false).
Proof.
  revert env. induction l as [|[p v] l IH]; intros env Hinit Hplan.
  - simpl. by rewrite app_nil_r.
  - cbn [frames map run deliver fst snd length replicate].
    destruct (render_total p v env Hinit Hplan) as [env' Hr].
    pose proof (render_keeps_empty_plan p v env Hplan) as Hplan'.
    pose proof (render_keeps p v env) as Hkeep.
    rewrite Hr in *. cbn [snd] in *.
    assert (Hinit' : initialised (this env')).
    { eapply (same_instance_initialised env); [ | exact Hinit ].
      destruct Hkeep as (?&?&?&?&?&?&?&?&_). by repeat split. }
    fold (frames l). rewrite (IH env' Hinit' Hplan').
    apply render_returns in Hr as [(sh & vb & tb & ib & m0 & mv0 & pos & Hthis & Hp) _].
    cbv zeta in Hp. destruct Hp as (_ & _ & Hd & _).
    destruct Hinit as (_&_&_&_&(h & Hi)&_).
    rewrite Hthis in Hi. cbn in Hi. injection Hi as ->.
    rewrite Hd. cbn [numItems default from_option id]. rewrite <- app_assoc. reflexivity.
Qed.

Lemma frames_draw_once_each_witness :
  length (draws (gl (run (frames [(identity_matrix, sample_view);
                                  (identity_matrix, identity_matrix);
                                  (sample_view, sample_view)]) sample_skybox))) = 3%nat.
Proof.
  rewrite (frames_draw_once_each
             [(identity_matrix, sample_view); (identity_matrix, identity_matrix);
              (sample_view, sample_view)] sample_skybox).
  - reflexivity.
  - unfold initialised, slots_resolved. vm_compute. repeat split; eauto.
  - reflexivity.
Defined.
